(** * iris-web E01 processor module and CSV timeline importer

    A shallow embedding of
      - [source/iris_e01_processor/IrisE01Processor.py] (module [E01]) and
      - [source/tools/import_timeline_from_csv.py]       (module [Csv]),
    together with the properties of the two programs stated in the
    repository's specification.

    Python values are embedded as Rocq data, Python dictionaries as
    [gmap]s, and effectful code as functions in a state-and-exception
    monad whose state is the chronological list of the effects performed
    so far (log records, datastore queries, directory creation, process
    spawns, HTTP requests, printed lines). *)

From Stdlib Require Import ZArith List String Ascii Bool Lia DecimalString.
From stdpp Require Import base gmap strings.
Import ListNotations.

Local Open Scope string_scope.

(* ===================================================================== *)
(** * Python runtime: exceptions, results, the effect monad              *)
(* ===================================================================== *)

Module Py.

(** The exception classes that the two programs and the libraries they
    call can raise.  All of them derive from [Exception]. *)
Inductive exn_class :=
| Exception
| ValueError
| TypeError
| AttributeError
| RuntimeError
| OSError
| FileNotFoundError
| PermissionError
| ConnectionError
| SQLAlchemyError.

Definition exn_class_eqb (c d : exn_class) : bool :=
  match c, d with
  | Exception, Exception | ValueError, ValueError | TypeError, TypeError
  | AttributeError, AttributeError | RuntimeError, RuntimeError
  | OSError, OSError | FileNotFoundError, FileNotFoundError
  | PermissionError, PermissionError | ConnectionError, ConnectionError
  | SQLAlchemyError, SQLAlchemyError => true
  | _, _ => false
  end.

(** Direct base class ([FileNotFoundError], [PermissionError] and
    [ConnectionError] are [OSError]s). *)
Definition base_class (c : exn_class) : option exn_class :=
  match c with
  | Exception => None
  | FileNotFoundError | PermissionError | ConnectionError => Some OSError
  | _ => Some Exception
  end.

Fixpoint issubclass_upto (fuel : nat) (c d : exn_class) : bool :=
  exn_class_eqb c d ||
  match fuel with
  | O => false
  | S fuel' =>
      match base_class c with
      | Some b => issubclass_upto fuel' b d
      | None => false
      end
  end.

(** The hierarchy has depth two below [Exception]. *)
Definition issubclass : exn_class -> exn_class -> bool := issubclass_upto 2.

Record exn := mk_exn { exn_cls : exn_class; exn_msg : string }.

Definition isinstance (e : exn) (c : exn_class) : bool :=
  issubclass (exn_cls e) c.

(** Outcome of running a piece of Python code: a value, a raised exception
    or a [SystemExit] request. *)
Inductive result (A : Type) :=
| Ok (a : A)
| Raise (e : exn)
| SysExit (code : Z).
Arguments Ok {A} a.
Arguments Raise {A} e.
Arguments SysExit {A} code.

Section Monad.
Context {S : Type}.

Definition M (A : Type) : Type := S -> result A * S.

Definition ret {A} (a : A) : M A := fun s => (Ok a, s).

Definition bind {A B} (m : M A) (k : A -> M B) : M B :=
  fun s =>
    match m s with
    | (Ok a, s') => k a s'
    | (Raise e, s') => (Raise e, s')
    | (SysExit c, s') => (SysExit c, s')
    end.

Definition raise {A} (e : exn) : M A := fun s => (Raise e, s).

Definition get : M S := fun s => (Ok s, s).

(** [except C as e: h e] clauses are tried in order; the first clause
    whose class the exception is an instance of handles it. *)
Fixpoint find_handler {A} (hs : list (exn_class * (exn -> M A))) (e : exn)
  : option (M A) :=
  match hs with
  | [] => None
  | (c, h) :: hs' => if isinstance e c then Some (h e) else find_handler hs' e
  end.

Definition try_except {A} (body : M A)
           (handlers : list (exn_class * (exn -> M A))) : M A :=
  fun s =>
    match body s with
    | (Raise e, s') =>
        match find_handler handlers e with
        | Some h => h s'
        | None => (Raise e, s')
        end
    | r => r
    end.

(** [for x in xs: body x] *)
Fixpoint for_each {A} (xs : list A) (body : A -> M unit) : M unit :=
  match xs with
  | [] => ret tt
  | x :: xs' => bind (body x) (fun _ => for_each xs' body)
  end.
End Monad.

Arguments M : clear implicits.

(** A computation over a trace of events is [framed] when it never asks
    for [SystemExit] and what it does is independent of the effects
    performed before it: run after a trace [s] it returns what it returns
    on the empty trace and appends the same events to [s]. *)
Definition framed {E A} (m : M (list E) A) : Prop :=
  (forall s, m s = (fst (m []), (s ++ snd (m []))%list)) /\
  (forall c, fst (m []) <> SysExit c).

(** [str(n)] for a Python [int]. *)
Definition str_of_Z (z : Z) : string := NilZero.string_of_int (Z.to_int z).

(** [str(x)] for an [int] attribute that may be [None]. *)
Definition str_of_opt_Z (o : option Z) : string :=
  match o with
  | Some z => str_of_Z z
  | None => "None"
  end.

(** Truth value of a [str] or [None]. *)
Definition truthy_opt_str (o : option string) : bool :=
  match o with
  | Some s => negb (String.eqb s "")
  | None => false
  end.

(** Truth value of an [int] or [None]. *)
Definition truthy_opt_Z (o : option Z) : bool :=
  match o with
  | Some z => negb (z =? 0)%Z
  | None => false
  end.

(** [s.rstrip(c)] for a single character [c]. *)
Fixpoint rstrip (c : ascii) (s : string) : string :=
  match s with
  | EmptyString => EmptyString
  | String a t =>
      match rstrip c t with
      | EmptyString => if Ascii.eqb a c then EmptyString else String a EmptyString
      | t' => String a t'
      end
  end.

(** [c * n] for a one-character string. *)
Fixpoint repeat_char (c : ascii) (n : nat) : string :=
  match n with
  | O => EmptyString
  | S n' => String c (repeat_char c n')
  end.

(** [s.endswith(c)] for a one-character string. *)
Fixpoint ends_with (c : ascii) (s : string) : bool :=
  match s with
  | EmptyString => false
  | String a EmptyString => Ascii.eqb a c
  | String _ t => ends_with c t
  end.

(** Configuration values and script arguments are dynamically typed. *)
Inductive pyval :=
| PyNone
| PyBool (b : bool)
| PyInt (z : Z)
| PyStr (s : string).

(** [bool(v)] *)
Definition truthy (v : pyval) : bool :=
  match v with
  | PyNone => false
  | PyBool b => b
  | PyInt z => negb (z =? 0)%Z
  | PyStr s => negb (String.eqb s "")
  end.

(** [str(v)], also what [%s] formats. *)
Definition py_str (v : pyval) : string :=
  match v with
  | PyNone => "None"
  | PyBool true => "True"
  | PyBool false => "False"
  | PyInt z => str_of_Z z
  | PyStr s => s
  end.

(** [d.get(key, default)] on a configuration dictionary. *)
Definition dict_get (d : gmap string pyval) (key : string) (dflt : pyval)
  : pyval :=
  match d !! key with
  | Some v => v
  | None => dflt
  end.

End Py.

Declare Scope py_scope.
Notation "x <- m ;; k" := (Py.bind m (fun x => k))
  (at level 100, m at next level, right associativity) : py_scope.
Notation "m ;; k" := (Py.bind m (fun _ => k))
  (at level 100, right associativity) : py_scope.
Local Open Scope py_scope.

(* ===================================================================== *)
(** * The standard library's [shlex.split]                                *)
(* ===================================================================== *)

(** [shlex.split(s)] runs the [shlex] lexer in POSIX mode with
    [whitespace_split] set and comments switched off.  The lexer is the
    state machine of [shlex.read_token]: between tokens, inside a word,
    inside a quotation, or just after an escape character. *)
Module Shlex.
Import Py.

Inductive lex_state :=
| Between                 (* state ' ' *)
| InWord                  (* state 'a' *)
| InQuote (q : ascii)     (* state is the opening quote character *)
| Escaped (e : ascii).    (* state is the escape character *)

Definition is_whitespace (c : ascii) : bool :=
  Ascii.eqb c " " || Ascii.eqb c "009" || Ascii.eqb c "013" || Ascii.eqb c "010".

(** The two quote characters: ['] and the double quote (code 34). *)
Definition is_quote (c : ascii) : bool :=
  Ascii.eqb c "'" || Ascii.eqb c "034".

(** The escape character is the backslash (code 92). *)
Definition is_escape (c : ascii) : bool := Ascii.eqb c "092".

(** Only the double quote allows escapes inside it. *)
Definition is_escapedquote (c : ascii) : bool := Ascii.eqb c "034".

Definition snoc (token : string) (c : ascii) : string :=
  token ++ String c EmptyString.

(** A finished [read_token]: an unquoted empty token is no token. *)
Definition emit_token (quoted : bool) (token : string) (acc : list string)
  : list string :=
  if quoted || negb (String.eqb token "") then (acc ++ [token])%list else acc.

(** [lex cs state escapedstate quoted token acc] consumes the characters
    [cs]; [escapedstate] is the state to return to after an escape, [quoted]
    and [token] belong to the token being read, [acc] holds the tokens
    already produced. *)
Fixpoint lex (cs : string) (state escapedstate : lex_state) (quoted : bool)
         (token : string) (acc : list string) : list string + exn :=
  match cs with
  | EmptyString =>
      match state with
      | Between | InWord => inl (emit_token quoted token acc)
      | InQuote _ => inr (mk_exn ValueError "No closing quotation")
      | Escaped _ => inr (mk_exn ValueError "No escaped character")
      end
  | String c cs' =>
      match state with
      | Between =>
          if is_whitespace c then
            if quoted || negb (String.eqb token "")
            then lex cs' Between escapedstate false "" (acc ++ [token])%list
            else lex cs' Between escapedstate quoted token acc
          else if is_escape c then lex cs' (Escaped c) InWord quoted token acc
          else if is_quote c then lex cs' (InQuote c) escapedstate quoted token acc
          else lex cs' InWord escapedstate quoted (String c EmptyString) acc
      | InQuote q =>
          if Ascii.eqb c q then lex cs' InWord escapedstate true token acc
          else if is_escape c && is_escapedquote q
               then lex cs' (Escaped c) (InQuote q) true token acc
          else lex cs' (InQuote q) escapedstate true (snoc token c) acc
      | Escaped e =>
          let token :=
            match escapedstate with
            | InQuote q =>
                if negb (Ascii.eqb c e) && negb (Ascii.eqb c q)
                then snoc token e else token
            | _ => token
            end in
          lex cs' escapedstate escapedstate quoted (snoc token c) acc
      | InWord =>
          if is_whitespace c then
            if quoted || negb (String.eqb token "")
            then lex cs' Between escapedstate false "" (acc ++ [token])%list
            else lex cs' Between escapedstate quoted token acc
          else if is_quote c then lex cs' (InQuote c) escapedstate quoted token acc
          else if is_escape c then lex cs' (Escaped c) InWord quoted token acc
          else lex cs' InWord escapedstate quoted (snoc token c) acc
      end
  end.

Definition split_str (s : string) : list string + exn :=
  lex s Between Between false "" [].

(** [shlex.split] applied to a configuration value: anything that is not a
    [str] has no [read] method for the lexer to call. *)
Definition split (v : pyval) : list string + exn :=
  match v with
  | PyStr s => split_str s
  | _ => inr (mk_exn AttributeError "object has no attribute 'read'")
  end.

End Shlex.

(* ===================================================================== *)
(** * tools/import_timeline_from_csv.py                                   *)
(* ===================================================================== *)

Module Csv.
Import Py.

(** Values produced by [resp.json()] (numbers are the integers). *)
#[local] Unset Elimination Schemes.
Inductive json :=
| JNull
| JBool (b : bool)
| JInt (z : Z)
| JStr (s : string)
| JList (l : list json)
| JDict (d : gmap string json).
#[local] Set Elimination Schemes.

(** Python truth value of a parsed JSON value. *)
Definition truthy (v : json) : bool :=
  match v with
  | JNull => false
  | JBool b => b
  | JInt z => negb (z =? 0)%Z
  | JStr s => negb (String.eqb s "")
  | JList l => match l with [] => false | _ => true end
  | JDict d => negb (bool_decide (d = ∅))
  end.

(** The JSON document sent to the server. *)
Record csv_options := {
  event_sync_iocs_assets : bool;
  event_in_summary : bool;
  event_in_graph : bool;
  event_source : string
}.

Record payload := {
  CSVData : string;
  CSVOptions : csv_options
}.

(** What [requests.post] hands back: the status line, the raw body and the
    outcome of decoding the body as JSON ([None]: the body is not JSON and
    [resp.json()] raises a [ValueError]). *)
Record Response := {
  status_code : Z;
  text : string;
  json_body : option json
}.

(** [Response.ok] of the requests library: [raise_for_status] raises
    exactly for the status codes from 400 up to 599. *)
Definition ok (resp : Response) : bool :=
  negb ((400 <=? status_code resp)%Z && (status_code resp <? 600)%Z).

Inductive stream := stdout | stderr.

(** The observable effects of the tool, in the order they happen. *)
Inductive event :=
| ReadText (path : string)
| Post (url : string) (body : payload) (headers : gmap string string)
       (timeout : Z)
| Print (file : stream) (line : string).

(** Arguments as parsed by [argparse]. *)
Record Namespace := {
  base_url : string;
  case_id : Z;
  csv : string;
  api_token : option string;
  cookie : option string;
  event_source_arg : string;
  no_summary : bool;
  no_graph : bool;
  sync_iocs_assets : bool
}.

(** The environment the tool runs in: the command-line parser, the file
    system, the network, and the interpreter's [repr] of parsed JSON. *)
Record world := {
  (** [parser.parse_args(argv)]: the parsed arguments, or the exit status
      argparse terminates the process with *)
  parse_args : list string -> Namespace + Z;
  (** [pathlib.Path(p).expanduser().resolve()]: the resolved path, or
      the exception pathlib raises (no home directory for the user named
      after [~], a symbolic link loop, an embedded null character) *)
  resolve : string -> string + exn;
  (** [Path.is_file()]: whether the path names a regular file, or the
      exception the file system answers the test with *)
  is_file : string -> bool + exn;
  (** [Path.read_text(encoding="utf-8")]: the text or the exception *)
  file_text : string -> string + exn;
  (** the answer to one HTTP POST, or the exception requests raises *)
  http : string -> payload -> gmap string string -> Response + exn;
  (** [repr] of a parsed JSON value *)
  py_repr : json -> string
}.

Abbreviation M := (Py.M (list event)).

Definition emit (ev : event) : M unit := fun s => (Ok tt, (s ++ [ev])%list).

Definition print (file : stream) (line : string) : M unit :=
  emit (Print file line).

Section Program.
Variable w : world.

Definition read_text (path : string) : M string :=
  emit (ReadText path) ;;
  match file_text w path with
  | inl txt => ret txt
  | inr e => raise e
  end.

Definition requests_post (url : string) (body : payload)
           (headers : gmap string string) (timeout : Z) : M Response :=
  emit (Post url body headers timeout) ;;
  match http w url body headers with
  | inl resp => ret resp
  | inr e => raise e
  end.

(** [resp.json()] *)
Definition resp_json (resp : Response) : M json :=
  match json_body resp with
  | Some v => ret v
  | None => raise (mk_exn ValueError "Expecting value")
  end.

(** [data.get(key, default)]: only a [dict] has a [get] attribute. *)
Definition data_get (data : json) (key : string) (default : json) : M json :=
  match data with
  | JDict d =>
      ret (match d !! key with Some v => v | None => default end)
  | _ => raise (mk_exn AttributeError "object has no attribute 'get'")
  end.

(** [str(v)] as used by an f-string: a [str] is printed as it is, any
    other value through [repr]. *)
Definition py_str (v : json) : string :=
  match v with
  | JStr s => s
  | _ => py_repr w v
  end.

Definition build_headers (api_token cookie : option string)
  : gmap string string :=
  let headers : gmap string string :=
    {[ "Content-Type" := "application/json" ]} in
  let headers :=
    if truthy_opt_str api_token
    then <[ "Authorization" := "Bearer " ++ default "" api_token ]> headers
    else headers in
  let headers :=
    if truthy_opt_str cookie
    then <[ "Cookie" := default "" cookie ]> headers
    else headers in
  headers.

(** The f-string on line 64. *)
Definition request_url (base_url : string) (case_id : Z) : string :=
  rstrip "/" base_url ++ "/case/evidences/" ++ str_of_Z case_id
    ++ "/../timeline/events/csv_upload".

Definition import_csv (base_url : string) (case_id : Z) (csv_path : string)
           (api_token cookie : option string) (event_source : string)
           (event_in_summary event_in_graph sync_iocs_assets : bool) : M Z :=
  csv_text <- read_text csv_path ;;
  let url := request_url base_url case_id in
  let payload :=
    {| CSVData := csv_text;
       CSVOptions :=
         {| event_sync_iocs_assets := sync_iocs_assets;
            event_in_summary := event_in_summary;
            event_in_graph := event_in_graph;
            event_source := event_source |} |} in
  let headers := build_headers api_token cookie in
  resp <- requests_post url payload headers 60 ;;
  data <- try_except (resp_json resp)
            [(ValueError,
              fun _ => ret (JDict {[ "raw" := JStr (text resp) ]}))] ;;
  if ok resp then
    message <- data_get data "message" (JStr "") ;;
    print stdout ("[+] Import succeeded: "
                  ++ py_str (if truthy message then message else data)) ;;
    ret 0%Z
  else
    print stderr ("[-] Import failed (HTTP " ++ str_of_Z (status_code resp)
                  ++ "): " ++ py_str data) ;;
    ret 1%Z.

(** [pathlib.Path(p).expanduser().resolve()] *)
Definition path_resolve (p : string) : M string :=
  match resolve w p with
  | inl q => ret q
  | inr e => raise e
  end.

(** [csv_path.is_file()] *)
Definition path_is_file (p : string) : M bool :=
  match is_file w p with
  | inl b => ret b
  | inr e => raise e
  end.

Definition main (argv : list string) : M Z :=
  match parse_args w argv with
  | inr code => fun s => (SysExit code, s)
  | inl args =>
      csv_path <- path_resolve (csv args) ;;
      exists_ <- path_is_file csv_path ;;
      if negb exists_ then
        print stderr ("CSV file not found: " ++ csv_path) ;;
        ret 1%Z
      else
        import_csv (base_url args) (case_id args) csv_path
                   (api_token args) (cookie args) (event_source_arg args)
                   (negb (no_summary args)) (negb (no_graph args))
                   (sync_iocs_assets args)
  end.
End Program.

End Csv.

(* ===================================================================== *)
(** * iris_e01_processor/IrisE01Processor.py                              *)
(* ===================================================================== *)

Module E01.
Import Py.

(** ** The host's data model, as far as the module reads it *)

Record Client := { client_name : option string }.

Record Cases := {
  case_name : option string;
  case_client : option Client
}.

(** An evidence record ([CaseReceivedFile]). *)
Record CaseReceivedFile := {
  id : Z;
  case_id : option Z;
  file_hash : option string;
  case : option Cases
}.

(** A stored-file record ([DataStoreFile]); the addition time is a
    timestamp. *)
Record DataStoreFile := {
  file_case_id : Z;
  file_sha256 : string;
  file_date_added : Z;
  file_local_name : option string
}.

(** What the hook dispatch delivers: a list of objects or a single object,
    each an evidence record or something else. *)
Inductive host_object :=
| Evidence (ev : CaseReceivedFile)
| OtherObject (name : string).

Inductive hook_data :=
| DataList (l : list host_object)
| DataObject (o : host_object).

(** [IrisInterfaceStatus] results. *)
Inductive IrisInterfaceStatus :=
| I2Success (data : hook_data) (logs : list string)
| I2Error (message : string) (logs : list string).

(** ** The status the host reads

    [InterfaceStatus.I2Success] and [InterfaceStatus.I2Error] are status
    templates of the host interface (package [iris_interface], which is not
    part of this repository).  Calling a template gives the status; an
    argument replaces the template's field only when the argument is
    truthy, a falsy argument leaves the field as the template has it.
    [IrisInterfaceStatus] records the call with its arguments; [get_data]
    is the data field the host then reads from the status. *)
Section Status.
(** truth value of an object the hook dispatch delivers *)
Variable object_truthy : host_object -> bool.
(** the data field of the template before the call; [None] for the
    template as the interface declares it *)
Variable template_data : option hook_data.

(** Truth value of a payload: a list is truthy when it is not empty. *)
Definition payload_truthy (data : hook_data) : bool :=
  match data with
  | DataList [] => false
  | DataList (_ :: _) => true
  | DataObject o => object_truthy o
  end.

(** [status.get_data()] *)
Definition get_data (status : IrisInterfaceStatus) : option hook_data :=
  match status with
  | I2Success data _ =>
      if payload_truthy data then Some data else template_data
  | I2Error _ _ => template_data
  end.
End Status.

(** ** Effects *)

Inductive log_method := debug | info | warning | error | exception.

(** Answers of the operating system to a request to run a program. *)
Inductive errno := ENOENT | EACCES | ENOEXEC | ENOMEM.

Inductive event :=
| Log (method : log_method) (msg : string)
  (** [DataStoreFile.query.filter(...).order_by(...).first()] *)
| Query (case_id : Z) (sha256 : string)
  (** directory creation by [build_upload_path(..., create=True)] *)
| Makedirs (path : string)
  (** [subprocess.Popen(args, env=..., cwd=...)] *)
| Popen (args : list pyval) (env : gmap string string) (cwd : option string).

(** The host and operating system the module runs in. *)
Record world := {
  (** [self.module_dict_conf]: the reloaded configuration, which the
      handler takes to be a mapping ([conf.get] on line 90 is outside the
      [try]), or the exception the reload raises *)
  module_dict_conf : gmap string pyval + exn;
  (** [getattr(self, "_dict_conf", {})]; [None] when absent or [None] *)
  _dict_conf : option (gmap string pyval);
  (** rows of the stored-file table *)
  datastore : list DataStoreFile;
  (** a lookup may fail in the database layer *)
  query_fault : Z -> string -> option exn;
  (** path derived by [build_upload_path] from client, case and module *)
  upload_path : string -> string -> string -> string;
  (** creating that directory may fail *)
  makedirs_fault : string -> option exn;
  (** [os.environ] *)
  environ : gmap string string;
  (** [app.config.get("UPLOADED_PATH", None)] *)
  UPLOADED_PATH : option string;
  (** the operating system's answer when asked to run a program:
      [None] when the process starts *)
  os_exec : string -> option errno
}.

Abbreviation M := (Py.M (list event)).

Definition emit (ev : event) : M unit := fun s => (Ok tt, (s ++ [ev])%list).

Definition log (method : log_method) (msg : string) : M unit :=
  emit (Log method msg).

(** [self.message_queue]: the host interface queues the records the
    module logs; they are taken here by their messages, every level
    included. *)
Definition message_queue (s : list event) : list string :=
  flat_map (fun ev => match ev with Log _ msg => [msg] | _ => [] end) s.

(** [list(self.message_queue)] *)
Definition queued_logs : M (list string) :=
  s <- get ;; ret (message_queue s).

(** [module_name] of IrisE01ProcessorConfig.py. *)
Definition module_name : string := "iris_e01_processor".

(** [ORDER BY key DESC]: insertion sort, rows with equal keys keep their
    order. *)
Fixpoint insert_desc {A} (key : A -> Z) (x : A) (l : list A) : list A :=
  match l with
  | [] => [x]
  | y :: l' =>
      if (key y <=? key x)%Z then x :: y :: l'
      else y :: insert_desc key x l'
  end.

Definition order_by_desc {A} (key : A -> Z) (l : list A) : list A :=
  fold_right (insert_desc key) [] l.

(** The [filter] clause of the query. *)
Definition matches (cid : Z) (sha256 : string) (r : DataStoreFile) : bool :=
  (file_case_id r =? cid)%Z && String.eqb (file_sha256 r) sha256.

(** Python's mapping of [errno] values to [OSError] subclasses. *)
Definition oserror (e : errno) : exn :=
  match e with
  | ENOENT => mk_exn FileNotFoundError "[Errno 2] No such file or directory"
  | EACCES => mk_exn PermissionError "[Errno 13] Permission denied"
  | ENOEXEC => mk_exn OSError "[Errno 8] Exec format error"
  | ENOMEM => mk_exn OSError "[Errno 12] Cannot allocate memory"
  end.

(** The program of an argument vector, when every argument is a [str]. *)
Fixpoint argv_strings (args : list pyval) : option (list string) :=
  match args with
  | [] => Some []
  | PyStr s :: args' =>
      match argv_strings args' with
      | Some l => Some (s :: l)
      | None => None
      end
  | _ :: _ => None
  end.

Section Program.
Variable w : world.

(** [DataStoreFile.query.filter(case, hash).order_by(date.desc()).first()] *)
Definition query_first (cid : Z) (sha256 : string)
  : M (option DataStoreFile) :=
  emit (Query cid sha256) ;;
  match query_fault w cid sha256 with
  | Some e => raise e
  | None =>
      ret (head (order_by_desc file_date_added
                   (List.filter (matches cid sha256) (datastore w))))
  end.

(** Modelled from the spec: [build_upload_path] of the host application
    (app/iris_engine/utils/common.py) derives a path from the client name,
    the case name and the module name and, with [create], ensures the
    directory exists. *)
Definition build_upload_path (case_customer case_name module : string)
           (create : bool) : M (option string) :=
  let path := upload_path w case_customer case_name module in
  (if create then
     emit (Makedirs path) ;;
     match makedirs_fault w path with
     | Some e => raise e
     | None => ret tt
     end
   else ret tt) ;;
  ret (Some path).

(** The exception a spawn ends in, if any: the arguments must be strings,
    then the operating system is asked to run the first one. *)
Definition spawn_error (args : list pyval) : option exn :=
  match argv_strings args with
  | Some (prog :: _) =>
      match os_exec w prog with
      | None => None
      | Some e => Some (oserror e)
      end
  | Some [] => Some (mk_exn ValueError "empty argument vector")
  | None =>
      Some (mk_exn TypeError "expected str, bytes or os.PathLike object")
  end.

(** [subprocess.Popen(args, env=env, cwd=cwd, ...)]; the child is not
    waited for. *)
Definition subprocess_Popen (args : list pyval) (env : gmap string string)
           (cwd : option string) : M unit :=
  emit (Popen args env cwd) ;;
  match spawn_error args with
  | Some e => raise e
  | None => ret tt
  end.

Definition _resolve_evidence_path (evidence : CaseReceivedFile)
  : M (option string) :=
  if negb (truthy_opt_str (file_hash evidence))
     || negb (truthy_opt_Z (case_id evidence))
  then ret None
  else
    dsf <- query_first (default 0%Z (case_id evidence))
                       (default "" (file_hash evidence)) ;;
    match dsf with
    | None =>
        log warning
            ("IrisE01Processor: no DataStoreFile found for evidence id="
             ++ str_of_Z (id evidence) ++ " case_id="
             ++ str_of_opt_Z (case_id evidence) ++ " sha256="
             ++ default "None" (file_hash evidence)) ;;
        ret None
    | Some dsf => ret (file_local_name dsf)
    end.

Definition _compute_output_dir (evidence : CaseReceivedFile)
  : M (option string) :=
  try_except
    (let case := case evidence in
     let client :=
       match case with Some c => case_client c | None => None end in
     let case_customer :=
       match client with Some cl => client_name cl | None => None end in
     let case_name :=
       match case with Some c => case_name c | None => None end in
     if negb (truthy_opt_str case_customer)
        || negb (truthy_opt_str case_name)
     then ret None
     else
       output_dir <- build_upload_path (default "" case_customer)
                       (default "" case_name) module_name true ;;
       ret output_dir)
    [(Exception,
      fun e =>
        log exception
            ("IrisE01Processor: failed to compute output directory for "
             ++ "evidence id=" ++ str_of_Z (id evidence) ++ ": "
             ++ exn_msg e) ;;
        ret None)].

(** The five variables added to the child's environment. *)
Definition child_env (evidence : CaseReceivedFile) (e01_path : string)
           (output_dir : option string) : gmap string string :=
  <[ "IRIS_MODULE_NAME" := module_name ]>
  (<[ "IRIS_E01_OUTPUT_DIR" :=
        if truthy_opt_str output_dir then default "" output_dir else "" ]>
  (<[ "IRIS_E01_PATH" := e01_path ]>
  (<[ "IRIS_EVIDENCE_ID" := str_of_Z (id evidence) ]>
  (<[ "IRIS_CASE_ID" := str_of_opt_Z (case_id evidence) ]>
     (environ w))))).

Definition _launch_processing_script (script_path extra_args_raw : pyval)
           (evidence : CaseReceivedFile) (e01_path : string)
           (output_dir : option string) : M unit :=
  let args := [script_path; PyStr e01_path] in
  extra_args <-
    (if truthy extra_args_raw then
       try_except
         (match Shlex.split extra_args_raw with
          | inl l => ret l
          | inr e => raise e
          end)
         [(ValueError,
           fun _ =>
             log error
                 ("IrisE01Processor: failed to parse e01_script_extra_args '"
                  ++ py_str extra_args_raw ++ "'; ignoring extra args.") ;;
             ret [])]
     else ret []) ;;
  let args := (args ++ map PyStr extra_args)%list in
  let env := child_env evidence e01_path output_dir in
  try_except
    (subprocess_Popen args env
       (if truthy_opt_str output_dir then output_dir else UPLOADED_PATH w))
    [(FileNotFoundError,
      fun _ =>
        log error ("IrisE01Processor: script '" ++ py_str script_path
                   ++ "' not found or not executable."));
     (Exception,
      fun e =>
        log exception ("IrisE01Processor: failed to launch script '"
                       ++ py_str script_path ++ "': " ++ exn_msg e))].

(** The body of the [try] inside the loop over the evidence items. *)
Definition process_evidence (script_path extra_args_raw : pyval)
           (log_debug : bool) (evidence : CaseReceivedFile) : M unit :=
  e01_path <- _resolve_evidence_path evidence ;;
  if negb (truthy_opt_str e01_path) then
    log warning
        ("IrisE01Processor: unable to resolve local path for evidence id="
         ++ str_of_Z (id evidence) ++ ", case_id="
         ++ str_of_opt_Z (case_id evidence))
  else
    output_dir <- _compute_output_dir evidence ;;
    (if log_debug then
       log debug
           ("IrisE01Processor: launching script '" ++ py_str script_path
            ++ "' for evidence id=" ++ str_of_Z (id evidence)
            ++ ", case_id=" ++ str_of_opt_Z (case_id evidence)
            ++ ", e01_path='" ++ default "" e01_path
            ++ "', output_dir='"
            ++ (if truthy_opt_str output_dir then default "" output_dir
                else "")
            ++ "'")
     else ret tt) ;;
    _launch_processing_script script_path extra_args_raw evidence
                              (default "" e01_path) output_dir.

(** One iteration of the loop: the body under its [except Exception]. *)
Definition handle_evidence (script_path extra_args_raw : pyval)
           (log_debug : bool) (evidence : CaseReceivedFile) : M unit :=
  try_except
    (process_evidence script_path extra_args_raw log_debug evidence)
    [(Exception,
      fun e =>
        log exception
            ("IrisE01Processor: error while handling evidence id="
             ++ str_of_Z (id evidence) ++ ": " ++ exn_msg e))].

(** The configuration the handler works with. *)
Definition current_conf : gmap string pyval :=
  match module_dict_conf w with
  | inl conf => conf
  | inr _ => default ∅ (_dict_conf w)
  end.

(** The recognised evidence items of the payload. *)
Definition evidences_of (data : hook_data) : list CaseReceivedFile :=
  match data with
  | DataList l =>
      flat_map (fun o => match o with Evidence ev => [ev] | _ => [] end) l
  | DataObject (Evidence ev) => [ev]
  | DataObject _ => []
  end.

(** The four settings the handler reads from the configuration. *)
Definition conf_enabled : bool :=
  truthy (dict_get current_conf "enabled" (PyBool true)).

Definition conf_script_path : pyval :=
  dict_get current_conf "e01_script_path" PyNone.

Definition conf_extra_args_raw : pyval :=
  let v := dict_get current_conf "e01_script_extra_args" PyNone in
  if truthy v then v else PyStr "".

Definition conf_log_debug : bool :=
  truthy (dict_get current_conf "log_debug" (PyBool false)).

Definition hooks_handler (hook_name hook_ui_name : string)
           (data : hook_data) : M IrisInterfaceStatus :=
  let conf := current_conf in
  let enabled := truthy (dict_get conf "enabled" (PyBool true)) in
  if negb enabled then
    logs <- queued_logs ;; ret (I2Success data logs)
  else if negb (String.eqb hook_name "on_postload_evidence_create") then
    logs <- queued_logs ;; ret (I2Success data logs)
  else
    let script_path := dict_get conf "e01_script_path" PyNone in
    let extra_args_raw :=
      let v := dict_get conf "e01_script_extra_args" PyNone in
      if truthy v then v else PyStr "" in
    let log_debug := truthy (dict_get conf "log_debug" (PyBool false)) in
    if negb (truthy script_path) then
      log error ("IrisE01Processor: e01_script_path is not configured; "
                 ++ "skipping evidence processing.") ;;
      logs <- queued_logs ;;
      ret (I2Error "e01_script_path not configured" logs)
    else
      let evidences := evidences_of data in
      match evidences with
      | [] =>
          (if log_debug then
             log debug ("IrisE01Processor: hook " ++ hook_name
                        ++ " received no CaseReceivedFile instances.")
           else ret tt) ;;
          logs <- queued_logs ;; ret (I2Success data logs)
      | _ =>
          for_each evidences
                   (handle_evidence script_path extra_args_raw log_debug) ;;
          logs <- queued_logs ;; ret (I2Success data logs)
      end.
End Program.

End E01.

(* ===================================================================== *)
(** * Concrete scenarios                                                  *)
(* ===================================================================== *)

(** A host with two uploads of one image in case 7, a database that fails
    for case 8, and a configurable answer of the operating system. *)
Module E01Scenarios.
Import Py E01.

Definition script : string := "/opt/iris/e01_processing/process_e01.sh".

Definition conf_default : gmap string pyval :=
  {[ "enabled" := PyBool true;
     "e01_script_path" := PyStr script;
     "e01_script_extra_args" := PyStr "";
     "log_debug" := PyBool false ]}.

Definition conf_disabled : gmap string pyval :=
  <[ "enabled" := PyBool false ]> conf_default.

Definition conf_no_script : gmap string pyval :=
  <[ "e01_script_path" := PyStr "" ]> conf_default.

Definition acme_case : Cases :=
  {| case_name := Some "intrusion";
     case_client := Some {| client_name := Some "acme" |} |}.

Definition ev_image : CaseReceivedFile :=
  {| id := 41; case_id := Some 7%Z; file_hash := Some "9f2c";
     case := Some acme_case |}.

Definition ev_lost : CaseReceivedFile :=
  {| id := 40; case_id := Some 8%Z; file_hash := Some "77aa";
     case := None |}.

Definition ev_no_hash : CaseReceivedFile :=
  {| id := 42; case_id := Some 7%Z; file_hash := None;
     case := Some acme_case |}.

Definition store : list DataStoreFile :=
  [ {| file_case_id := 7; file_sha256 := "9f2c"; file_date_added := 100;
       file_local_name := Some "/data/first.E01" |};
    {| file_case_id := 7; file_sha256 := "9f2c"; file_date_added := 250;
       file_local_name := Some "/data/second.E01" |};
    {| file_case_id := 7; file_sha256 := "0000"; file_date_added := 300;
       file_local_name := Some "/data/other.bin" |};
    {| file_case_id := 9; file_sha256 := "9f2c"; file_date_added := 400;
       file_local_name := Some "/data/elsewhere.E01" |} ].

Definition host (conf : gmap string pyval) (exec : option errno) : world :=
  {| module_dict_conf := inl conf;
     _dict_conf := None;
     datastore := store;
     query_fault :=
       fun cid _ =>
         if (cid =? 8)%Z
         then Some (mk_exn SQLAlchemyError "connection lost")
         else None;
     upload_path :=
       fun customer name module =>
         "/home/iris/uploads/" ++ customer ++ "/" ++ name ++ "/" ++ module;
     makedirs_fault := fun _ => None;
     environ := {[ "PATH" := "/usr/bin" ]};
     UPLOADED_PATH := Some "/home/iris/uploads";
     os_exec := fun _ => exec |}.

(** The payload of one hook firing: a failing item, a foreign object and a
    resolvable item. *)
Definition payload : hook_data :=
  DataList [Evidence ev_lost; OtherObject "Ioc"; Evidence ev_image].

End E01Scenarios.

(** A server that answers the upload with a JSON array, and a file system
    without the CSV file. *)
Module CsvScenarios.
Import Py Csv.

Definition args_example : Namespace :=
  {| base_url := "https://iris.local/api/v1/";
     case_id := 7;
     csv := "events.csv";
     api_token := Some "secret";
     cookie := None;
     event_source_arg := "E01 timeline";
     no_summary := false;
     no_graph := false;
     sync_iocs_assets := false |}.

Definition tool (csv_exists : bool) (answer : Response) : world :=
  {| parse_args := fun _ => inl args_example;
     resolve := fun p => inl ("/work/" ++ p);
     is_file := fun _ => inl csv_exists;
     file_text := fun _ => inl "event_date,event_tz,event_title";
     http := fun _ _ _ => inl answer;
     py_repr := fun v => match v with JList [] => "[]" | _ => "<json>" end |}.

Definition answer_array : Response :=
  {| status_code := 200; text := "[]"; json_body := Some (JList []) |}.

End CsvScenarios.

(* ===================================================================== *)
(** * iris_e01_processor/IrisE01ProcessorConfig.py                        *)
(* ===================================================================== *)

Module E01Config.
Import Py.

(** [IrisModuleTypes] of the host interface. *)
Inductive IrisModuleTypes := module_pipeline | module_processor.

Inductive param_type := type_bool | type_string.

(** One entry of [module_configuration]. *)
Record param := {
  param_name : string;
  param_human_name : string;
  param_description : string;
  default : pyval;
  mandatory : bool;
  type : param_type
}.

Definition module_name : string := "iris_e01_processor".

Definition module_description : string :=
  "Processor module that reacts when new evidence is registered and "
  ++ "launches an external script to process E01 images (e.g. Plaso, KAPE).".

Definition interface_version : string := "1.2.0".

Definition module_version : string := "0.1.0".

Definition module_type : IrisModuleTypes := module_processor.

Definition pipeline_support : bool := false.

Definition pipeline_info : gmap string pyval := ∅.

Definition module_configuration : list param :=
  [ {| param_name := "enabled";
       param_human_name := "Enable E01 processor";
       param_description :=
         "If false, the module will ignore hooks and not launch any processing.";
       default := PyBool true;
       mandatory := true;
       type := type_bool |};
    {| param_name := "e01_script_path";
       param_human_name := "E01 processing script path";
       param_description :=
         "Absolute path inside the worker/webapp container to the script that will "
         ++ "process the E01 image. The script must be executable and reachable from "
         ++ "the IRIS process (for example: /opt/iris/e01_processing/process_e01.sh).";
       default := PyStr "/opt/iris/e01_processing/process_e01.sh";
       mandatory := true;
       type := type_string |};
    {| param_name := "e01_script_extra_args";
       param_human_name := "Extra arguments for the script";
       param_description :=
         "Optional additional CLI arguments passed to the script. The E01 file path "
         ++ "will always be provided as the first positional argument. "
         ++ "Use this field for flags or other fixed parameters.";
       default := PyStr "";
       mandatory := false;
       type := type_string |};
    {| param_name := "log_debug";
       param_human_name := "Verbose logging";
       param_description :=
         "If true, the module will log detailed information about evidence resolution "
         ++ "and command execution to the module log.";
       default := PyBool false;
       mandatory := false;
       type := type_bool |} ].

(** The dictionary of the declared defaults, keyed by parameter name. *)
Definition declared_defaults : gmap string pyval :=
  list_to_map (map (fun p => (param_name p, default p)) module_configuration).

End E01Config.

(* ===================================================================== *)
(** * IrisE01Processor.register_hooks                                     *)
(* ===================================================================== *)

Module E01Register.
Import Py.

(** What the handler of a status object is asked: [is_failure()] and
    [get_message()]. *)
Record status := {
  is_failure : bool;
  get_message : string
}.

Inductive log_method := info | error.

Inductive event :=
  (** [self.register_to_hook(module_id, iris_hook_name=..., run_asynchronously=...)] *)
| RegisterToHook (module_id : Z) (iris_hook_name : string)
                 (run_asynchronously : bool)
| Log (method : log_method) (msg : string).

Abbreviation M := (Py.M (list event)).

Definition emit (ev : event) : M unit := fun s => (Ok tt, (s ++ [ev])%list).

(** The host's answer to a subscription request. *)
Definition register_to_hook (host : Z -> string -> bool -> status)
           (module_id : Z) (iris_hook_name : string)
           (run_asynchronously : bool) : M status :=
  emit (RegisterToHook module_id iris_hook_name run_asynchronously) ;;
  ret (host module_id iris_hook_name run_asynchronously).

Definition register_hooks (host : Z -> string -> bool -> status)
           (module_id : Z) : M status :=
  status <- register_to_hook host module_id "on_postload_evidence_create"
                             true ;;
  (if is_failure status then
     emit (Log error (get_message status))
   else
     emit (Log info
             "IrisE01Processor successfully subscribed to on_postload_evidence_create")) ;;
  ret status.

End E01Register.

(* ===================================================================== *)
(** * Observations on traces and further scenarios                        *)
(* ===================================================================== *)

Module E01Observe.
Import Py E01.

(** The argument vectors of the processes a trace asks to spawn. *)
Definition spawned (s : list event) : list (list pyval) :=
  flat_map (fun ev => match ev with Popen args _ _ => [args] | _ => [] end) s.

(** The datastore lookups of a trace. *)
Definition queries (s : list event) : list (Z * string) :=
  flat_map (fun ev => match ev with Query c h => [(c, h)] | _ => [] end) s.

(** The directories a trace creates. *)
Definition created (s : list event) : list string :=
  flat_map (fun ev => match ev with Makedirs p => [p] | _ => [] end) s.

End E01Observe.

Module ExtraScenarios.
Import Py.

(** A host whose configuration reload fails and that holds no cached
    configuration. *)
Definition host_reload_fails : E01.world :=
  {| E01.module_dict_conf := inr (mk_exn RuntimeError "no application context");
     E01._dict_conf := None;
     E01.datastore := E01Scenarios.store;
     E01.query_fault := fun _ _ => None;
     E01.upload_path := fun c n m => "/home/iris/uploads/" ++ c ++ "/" ++ n ++ "/" ++ m;
     E01.makedirs_fault := fun _ => None;
     E01.environ := ∅;
     E01.UPLOADED_PATH := None;
     E01.os_exec := fun _ => None |}.

(** A host on a read-only volume: directories cannot be created. *)
Definition host_read_only : E01.world :=
  {| E01.module_dict_conf := inl E01Scenarios.conf_default;
     E01._dict_conf := None;
     E01.datastore := E01Scenarios.store;
     E01.query_fault := fun _ _ => None;
     E01.upload_path := fun c n m => "/home/iris/uploads/" ++ c ++ "/" ++ n ++ "/" ++ m;
     E01.makedirs_fault :=
       fun _ => Some (mk_exn OSError "[Errno 30] Read-only file system");
     E01.environ := {[ "IRIS_CASE_ID" := "stale"; "PATH" := "/usr/bin" ]};
     E01.UPLOADED_PATH := Some "/home/iris/uploads";
     E01.os_exec := fun _ => None |}.

(** An evidence item whose hash no stored file carries. *)
Definition ev_unknown : E01.CaseReceivedFile :=
  {| E01.id := 43; E01.case_id := Some 7%Z; E01.file_hash := Some "ffff";
     E01.case := None |}.

(** A payload without evidence records. *)
Definition payload_foreign : E01.hook_data :=
  E01.DataList [E01.OtherObject "Ioc"; E01.OtherObject "CaseAssets"].

(** A configuration without its script path entry. *)
Definition conf_partial : gmap string pyval :=
  {[ "log_debug" := PyBool true ]}.

(** A host that refuses the subscription, and one that accepts it. *)
Definition host_refuses : Z -> string -> bool -> E01Register.status :=
  fun _ _ _ =>
    {| E01Register.is_failure := true;
       E01Register.get_message := "Hook not found" |}.

Definition host_accepts : Z -> string -> bool -> E01Register.status :=
  fun _ _ _ =>
    {| E01Register.is_failure := false;
       E01Register.get_message := "Success" |}.

(** A file that cannot be decoded, a server that cannot be reached, and two
    answers of a reachable server. *)
Definition tool_unreadable : Csv.world :=
  {| Csv.parse_args := fun _ => inl CsvScenarios.args_example;
     Csv.resolve := fun p => inl ("/work/" ++ p);
     Csv.is_file := fun _ => inl true;
     Csv.file_text :=
       fun _ => inr (mk_exn ValueError "'utf-8' codec can't decode byte 0xff");
     Csv.http := fun _ _ _ => inl CsvScenarios.answer_array;
     Csv.py_repr := fun _ => "<json>" |}.

Definition tool_offline : Csv.world :=
  {| Csv.parse_args := fun _ => inl CsvScenarios.args_example;
     Csv.resolve := fun p => inl ("/work/" ++ p);
     Csv.is_file := fun _ => inl true;
     Csv.file_text := fun _ => inl "event_date,event_tz,event_title";
     Csv.http := fun _ _ _ => inr (mk_exn ConnectionError "connection refused");
     Csv.py_repr := fun _ => "<json>" |}.

(** A [--csv] argument that names the home of a user the system does not
    know: [expanduser] raises.  The working directory holds no file. *)
Definition tool_unknown_user : Csv.world :=
  {| Csv.parse_args :=
       fun _ =>
         inl {| Csv.base_url := "https://iris.local/api/v1/";
                Csv.case_id := 7;
                Csv.csv := "~nobody_here/events.csv";
                Csv.api_token := None;
                Csv.cookie := None;
                Csv.event_source_arg := "E01 timeline";
                Csv.no_summary := false;
                Csv.no_graph := false;
                Csv.sync_iocs_assets := false |};
     Csv.resolve :=
       fun p =>
         if String.prefix "~nobody_here" p
         then inr (mk_exn RuntimeError "Could not determine home directory.")
         else inl ("/work/" ++ p);
     Csv.is_file := fun _ => inl false;
     Csv.file_text :=
       fun _ =>
         inr (mk_exn FileNotFoundError "[Errno 2] No such file or directory");
     Csv.http := fun _ _ _ => inl CsvScenarios.answer_array;
     Csv.py_repr := fun _ => "<json>" |}.

Definition answer_ok : Csv.Response :=
  {| Csv.status_code := 200;
     Csv.text :=
       "{" ++ String "034" ("message" ++ String "034" (": " ++ String "034"
           ("ok" ++ String "034" "}")));
     Csv.json_body := Some (Csv.JDict {[ "message" := Csv.JStr "ok" ]}) |}.

Definition answer_bad_request : Csv.Response :=
  {| Csv.status_code := 400;
     Csv.text := "bad csv";
     Csv.json_body := None |}.

End ExtraScenarios.

(* ===================================================================== *)
(** * Properties of the Python runtime model                             *)
(* ===================================================================== *)

Module PyFacts.
Import Py.

#[local] Arguments String.append !_ _ : simpl nomatch.

Lemma rstrip_repeat_char c n : rstrip c (repeat_char c n) = EmptyString.
Proof.
  induction n as [|n IH]; simpl; [reflexivity|].
  rewrite IH, Ascii.eqb_refl. reflexivity.
Qed.

Lemma rstrip_app_repeat_char c s n :
  rstrip c (s ++ repeat_char c n) = rstrip c s.
Proof.
  induction s as [|a t IH]; simpl.
  - apply rstrip_repeat_char.
  - rewrite IH. reflexivity.
Qed.

Lemma rstrip_decompose c s :
  exists k, s = rstrip c s ++ repeat_char c k.
Proof.
  induction s as [|a t [k IH]]; simpl.
  - exists O. reflexivity.
  - destruct (rstrip c t) as [|b t'] eqn:E; simpl in IH.
    + destruct (Ascii.eqb a c) eqn:Eac.
      * apply Ascii.eqb_eq in Eac. subst a. exists (S k). simpl. congruence.
      * exists k. simpl. congruence.
    + exists k. simpl. congruence.
Qed.

Lemma rstrip_no_trailing c s : ends_with c (rstrip c s) = false.
Proof.
  induction s as [|a t IH]; simpl; [reflexivity|].
  destruct (rstrip c t) as [|b t'] eqn:E.
  - destruct (Ascii.eqb a c) eqn:Eac; simpl; auto.
  - simpl. simpl in IH. exact IH.
Qed.

Lemma rstrip_fixed c s : ends_with c s = false -> rstrip c s = s.
Proof.
  induction s as [|a t IH]; simpl; [reflexivity|].
  destruct t as [|b t'].
  - simpl. intros ->. reflexivity.
  - intros H. rewrite (IH H). reflexivity.
Qed.

Lemma isinstance_Exception e : isinstance e Exception = true.
Proof. destruct e as [[] msg]; reflexivity. Qed.

(** ** Computations that only append to the trace *)

Section Framed.
Context {E : Type}.

Lemma framed_ret {A} (a : A) : framed (ret a : M (list E) A).
Proof.
  split; [intros s; unfold ret; simpl; now rewrite app_nil_r|].
  intros c; discriminate.
Qed.

Lemma framed_raise {A} (e : exn) : framed (raise e : M (list E) A).
Proof.
  split; [intros s; unfold raise; simpl; now rewrite app_nil_r|].
  intros c; discriminate.
Qed.

Lemma framed_bind {A B} (m : M (list E) A) (k : A -> M (list E) B) :
  framed m -> (forall a, framed (k a)) -> framed (bind m k).
Proof.
  intros [Hm Hx] Hk. unfold framed, bind. split.
  - intros s. rewrite (Hm s).
    destruct (m []) as [[a|e|c] t]; simpl.
    + destruct (Hk a) as [Hka _].
      rewrite (Hka (s ++ t)%list), (Hka t). simpl.
      now rewrite app_assoc.
    + reflexivity.
    + reflexivity.
  - intros c. destruct (m []) as [[a|e|c'] t] eqn:Em; simpl.
    + destruct (Hk a) as [Hka Hkx]. rewrite (Hka t). simpl. apply Hkx.
    + discriminate.
    + exfalso. apply (Hx c'). reflexivity.
Qed.

Lemma framed_try_except {A} (body : M (list E) A) handlers :
  framed body ->
  (forall c h, In (c, h) handlers -> forall e, framed (h e)) ->
  framed (try_except body handlers).
Proof.
  intros [Hb Hx] Hh. unfold framed, try_except. split.
  - intros s. rewrite (Hb s).
    destruct (body []) as [[a|e|c] t]; simpl; try reflexivity.
    assert (Hf : forall h, find_handler handlers e = Some h -> framed h).
    { clear -Hh. induction handlers as [|[c h0] hs IH]; simpl; [discriminate|].
      intros h. destruct (isinstance e c).
      - intros [= <-]. eapply Hh. left. reflexivity.
      - apply IH. intros c' h' Hin. eapply Hh. right. exact Hin. }
    destruct (find_handler handlers e) as [h|]; [|reflexivity].
    destruct (Hf h eq_refl) as [Hha _].
    rewrite (Hha (s ++ t)%list), (Hha t). simpl. now rewrite app_assoc.
  - intros c. destruct (body []) as [[a|e|c'] t] eqn:Eb; simpl.
    + discriminate.
    + assert (Hf : forall h, find_handler handlers e = Some h -> framed h).
      { clear -Hh. induction handlers as [|[c0 h0] hs IH]; simpl; [discriminate|].
        intros h. destruct (isinstance e c0).
        - intros [= <-]. eapply Hh. left. reflexivity.
        - apply IH. intros c' h' Hin. eapply Hh. right. exact Hin. }
      destruct (find_handler handlers e) as [h|]; [|discriminate].
      destruct (Hf h eq_refl) as [Hha Hhx]. rewrite (Hha t). simpl. apply Hhx.
    + exfalso. apply (Hx c'). reflexivity.
Qed.

Lemma framed_for_each {A} (xs : list A) (body : A -> M (list E) unit) :
  (forall x, framed (body x)) -> framed (for_each xs body).
Proof.
  intros Hb. induction xs as [|x xs IH]; simpl.
  - apply framed_ret.
  - apply framed_bind; [apply Hb|intros _; exact IH].
Qed.

(** A loop whose body always returns normally runs the body on every
    element: its trace is the concatenation of the traces of the
    iterations. *)
Lemma for_each_all {A} (xs : list A) (body : A -> M (list E) unit) s :
  (forall x, framed (body x)) ->
  (forall x, fst (body x []) = Ok tt) ->
  for_each xs body s =
  (Ok tt, (s ++ flat_map (fun x => snd (body x [])) xs)%list).
Proof.
  intros Hf Hok. revert s. induction xs as [|x xs IH]; intros s; simpl.
  - unfold ret. now rewrite app_nil_r.
  - unfold bind. destruct (Hf x) as [Hx _]. rewrite (Hx s), (Hok x).
    rewrite IH. now rewrite app_assoc.
Qed.
End Framed.

End PyFacts.

(* ===================================================================== *)
(** * The lexer on examples                                               *)
(* ===================================================================== *)

Module ShlexFacts.
Import Py Shlex.

Example split_words :
  split_str "--profile win10  -v" = inl ["--profile"; "win10"; "-v"].
Proof. reflexivity. Qed.

Example split_single_quotes_and_escape :
  split_str "a 'b c' d\ e ''" = inl ["a"; "b c"; "d e"; ""].
Proof. reflexivity. Qed.

(** Inside double quotes (character 34) a backslash escapes the quote. *)
Example split_double_quotes :
  split_str ("-o " ++ String "034" ("x\" ++ String "034" ("y z" ++ String "034" "")))
  = inl ["-o"; "x" ++ String "034" "y z"].
Proof. reflexivity. Qed.

Example split_unterminated_quote :
  split_str "--fast 'oops" = inr (mk_exn ValueError "No closing quotation").
Proof. reflexivity. Qed.

Example split_trailing_escape :
  split_str "--fast \" = inr (mk_exn ValueError "No escaped character").
Proof. reflexivity. Qed.

Example split_empty : split_str "" = inl [].
Proof. reflexivity. Qed.

End ShlexFacts.

(* ===================================================================== *)
(** * Properties of the CSV timeline importer                            *)
(* ===================================================================== *)

Module CsvFacts.
Import Py PyFacts Csv.

#[local] Arguments String.append !_ _ : simpl nomatch.

(** Unfolds the monadic plumbing of the importer. *)
Ltac run :=
  unfold main, path_resolve, path_is_file, import_csv, read_text,
    requests_post, resp_json, data_get,
    print, emit, try_except, bind, ret, raise; simpl.

(** The importer reads the file and then posts once; what it does next
    depends on the response only. *)
Lemma import_csv_after_post w base cid path tok cookie src a b c txt resp s :
  file_text w path = inl txt ->
  let body :=
    {| CSVData := txt;
       CSVOptions := {| event_sync_iocs_assets := c; event_in_summary := a;
                        event_in_graph := b; event_source := src |} |} in
  let hd := build_headers tok cookie in
  let url := request_url base cid in
  http w url body hd = inl resp ->
  let s1 := (s ++ [ReadText path] ++ [Post url body hd 60])%list in
  let data := match json_body resp with
              | Some v => v
              | None => JDict {[ "raw" := JStr (text resp) ]}
              end in
  import_csv w base cid path tok cookie src a b c s =
  if ok resp then
    match data with
    | JDict d =>
        let message := match d !! "message" with
                       | Some v => v
                       | None => JStr ""
                       end in
        (Ok 0%Z,
         (s1 ++ [Print stdout
                   ("[+] Import succeeded: "
                    ++ py_str w (if truthy message then message else data))])%list)
    | _ => (Raise (mk_exn AttributeError "object has no attribute 'get'"), s1)
    end
  else
    (Ok 1%Z,
     (s1 ++ [Print stderr
               ("[-] Import failed (HTTP " ++ str_of_Z (status_code resp)
                ++ "): " ++ py_str w data)])%list).
Proof.
  intros Hread body hd url Hpost s1 data. subst s1 data.
  run. rewrite Hread. simpl. fold body hd url. rewrite Hpost. simpl.
  rewrite <- app_assoc.
  destruct (json_body resp) as [v|]; simpl.
  - destruct (ok resp); [|reflexivity]. destruct v; reflexivity.
  - destruct (ok resp); reflexivity.
Qed.

(** A response with a non-success status: the status code and the body go
    to standard error and the exit code is 1, whatever the body is. *)
Lemma import_csv_http_failure w base cid path tok cookie src a b c txt resp s :
  file_text w path = inl txt ->
  http w (request_url base cid)
       {| CSVData := txt;
          CSVOptions := {| event_sync_iocs_assets := c; event_in_summary := a;
                           event_in_graph := b; event_source := src |} |}
       (build_headers tok cookie) = inl resp ->
  ok resp = false ->
  exists s1 data,
    import_csv w base cid path tok cookie src a b c s =
    (Ok 1%Z,
     (s1 ++ [Print stderr
               ("[-] Import failed (HTTP " ++ str_of_Z (status_code resp)
                ++ "): " ++ py_str w data)])%list).
Proof.
  intros Hread Hpost Hok.
  rewrite (import_csv_after_post _ _ _ _ _ _ _ _ _ _ _ _ _ Hread Hpost).
  rewrite Hok. eauto.
Qed.

(** A response with a success status whose body is a JSON object or is not
    JSON at all: a success line on standard output and exit code 0. *)
Lemma import_csv_http_success w base cid path tok cookie src a b c txt resp s :
  file_text w path = inl txt ->
  http w (request_url base cid)
       {| CSVData := txt;
          CSVOptions := {| event_sync_iocs_assets := c; event_in_summary := a;
                           event_in_graph := b; event_source := src |} |}
       (build_headers tok cookie) = inl resp ->
  ok resp = true ->
  (json_body resp = None \/ exists d, json_body resp = Some (JDict d)) ->
  exists s1 shown,
    import_csv w base cid path tok cookie src a b c s =
    (Ok 0%Z,
     (s1 ++ [Print stdout ("[+] Import succeeded: " ++ shown)])%list).
Proof.
  intros Hread Hpost Hok Hbody.
  rewrite (import_csv_after_post _ _ _ _ _ _ _ _ _ _ _ _ _ Hread Hpost).
  rewrite Hok. destruct Hbody as [-> | [d ->]]; eauto.
Qed.

(** C9: when the [--csv] argument expands and resolves to a path that
    does not name an existing file, [main] prints one line to standard
    error and returns 1; nothing is read and nothing is posted. *)
Theorem main_missing_csv w argv args csv_path s :
  parse_args w argv = inl args ->
  resolve w (csv args) = inl csv_path ->
  is_file w csv_path = inl false ->
  main w argv s =
  (Ok 1%Z,
   (s ++ [Print stderr ("CSV file not found: " ++ csv_path)])%list).
Proof.
  intros Hparse Hres Hfile. unfold main, path_resolve, path_is_file, bind.
  rewrite Hparse, Hres. simpl. rewrite Hfile. reflexivity.
Qed.

(** When expanding, resolving or testing the path raises, the exception
    leaves [main] before anything is printed, read or posted. *)
Lemma main_path_failure w argv args e s :
  parse_args w argv = inl args ->
  (resolve w (csv args) = inr e \/
   exists csv_path, resolve w (csv args) = inl csv_path /\
                    is_file w csv_path = inr e) ->
  main w argv s = (Raise e, s).
Proof.
  intros Hparse H. unfold main, path_resolve, path_is_file, bind.
  rewrite Hparse.
  destruct H as [-> | (csv_path & -> & Hf)]; [reflexivity|].
  simpl. rewrite Hf. reflexivity.
Qed.

(** Every request the importer sends goes to [request_url]. *)
Lemma import_csv_posts_to_request_url w base cid path tok cookie src a b c
      url body hd t :
  In (Post url body hd t)
     (snd (import_csv w base cid path tok cookie src a b c [])) ->
  url = request_url base cid.
Proof.
  destruct (file_text w path) as [txt|e] eqn:Hread.
  - destruct (http w (request_url base cid)
                {| CSVData := txt;
                   CSVOptions := {| event_sync_iocs_assets := c;
                                    event_in_summary := a;
                                    event_in_graph := b;
                                    event_source := src |} |}
                (build_headers tok cookie)) as [resp|e] eqn:Hpost.
    + rewrite (import_csv_after_post _ _ _ _ _ _ _ _ _ _ _ _ _ Hread Hpost).
      destruct (ok resp);
        [destruct (match json_body resp with Some v => v | None => _ end)|];
        simpl; intros H;
        repeat (destruct H as [H|H]; [congruence|]); try contradiction.
    + run. rewrite Hread. simpl. rewrite Hpost. simpl.
      intros [H|[H|[]]]; congruence.
  - run. rewrite Hread. simpl. intros [H|[]]. discriminate.
Qed.

(** Once the file is read, [import_csv] sends its request to
    [request_url]. *)
Lemma import_csv_requests_url w base cid path tok cookie src a b c txt s :
  file_text w path = inl txt ->
  exists rest,
    snd (import_csv w base cid path tok cookie src a b c s) =
    (s ++ [ReadText path;
           Post (request_url base cid)
                {| CSVData := txt;
                   CSVOptions := {| event_sync_iocs_assets := c;
                                    event_in_summary := a;
                                    event_in_graph := b;
                                    event_source := src |} |}
                (build_headers tok cookie) 60] ++ rest)%list.
Proof.
  intros Hread.
  destruct (http w (request_url base cid)
              {| CSVData := txt;
                 CSVOptions := {| event_sync_iocs_assets := c;
                                  event_in_summary := a;
                                  event_in_graph := b;
                                  event_source := src |} |}
              (build_headers tok cookie)) as [resp|e] eqn:Hpost.
  - rewrite (import_csv_after_post _ _ _ _ _ _ _ _ _ _ _ _ _ Hread Hpost).
    destruct (ok resp);
      [destruct (match json_body resp with Some v => v | None => _ end)|];
      simpl snd; rewrite <- ?app_assoc; simpl app; eexists;
      try reflexivity; instantiate (1 := []); reflexivity.
  - run. rewrite Hread. simpl. rewrite Hpost. simpl.
    exists []. rewrite <- app_assoc. reflexivity.
Qed.

(** C10: once the CSV file is read, [import_csv] sends its request to the
    base URL without its trailing slashes followed by the fixed path around
    the case id; a base URL that differs in trailing slashes only makes
    [import_csv] behave in exactly the same way, with the identical
    request URL. *)
Theorem request_url_trailing_slashes
        w base_url case_id csv_path tok cookie src a b c txt s :
  file_text w csv_path = inl txt ->
  exists stem k rest,
    base_url = stem ++ repeat_char "/" k /\
    ends_with "/" stem = false /\
    request_url base_url case_id =
    stem ++ "/case/evidences/" ++ str_of_Z case_id
      ++ "/../timeline/events/csv_upload" /\
    snd (import_csv w base_url case_id csv_path tok cookie src a b c s) =
    (s ++ [ReadText csv_path;
           Post (stem ++ "/case/evidences/" ++ str_of_Z case_id
                   ++ "/../timeline/events/csv_upload")
                {| CSVData := txt;
                   CSVOptions := {| event_sync_iocs_assets := c;
                                    event_in_summary := a;
                                    event_in_graph := b;
                                    event_source := src |} |}
                (build_headers tok cookie) 60] ++ rest)%list /\
    (forall m,
        request_url (stem ++ repeat_char "/" m) case_id =
        request_url base_url case_id /\
        import_csv w (stem ++ repeat_char "/" m) case_id csv_path tok cookie
                   src a b c s =
        import_csv w base_url case_id csv_path tok cookie src a b c s).
Proof.
  intros Hread.
  destruct (rstrip_decompose "/" base_url) as [k Hk].
  destruct (import_csv_requests_url w base_url case_id csv_path tok cookie
              src a b c txt s Hread) as [rest Hrest].
  exists (rstrip "/" base_url), k, rest.
  split; [exact Hk|]. split; [apply rstrip_no_trailing|].
  split; [reflexivity|]. split; [exact Hrest|].
  intros m.
  assert (Hurl : request_url (rstrip "/" base_url ++ repeat_char "/" m)
                             case_id = request_url base_url case_id).
  { unfold request_url. rewrite rstrip_app_repeat_char.
    rewrite (rstrip_fixed "/" (rstrip "/" base_url))
      by apply rstrip_no_trailing.
    reflexivity. }
  split; [exact Hurl|].
  unfold import_csv. rewrite Hurl. reflexivity.
Qed.

(** ** The scenarios of [CsvScenarios] *)

Import CsvScenarios.

(** C8: a response with status 200 whose body is the JSON array [[]].
    The body decodes, the decoded list has no [get], and [import_csv]
    raises [AttributeError] after the request: no success line is printed
    and no exit code is returned. *)
Theorem import_csv_success_with_json_array_raises :
  ok answer_array = true /\
  import_csv (tool true answer_array) "https://iris.local/api/v1/" 7
             "/work/events.csv" (Some "secret") None "E01 timeline"
             true true false [] =
  (Raise (mk_exn AttributeError "object has no attribute 'get'"),
   [ReadText "/work/events.csv";
    Post "https://iris.local/api/v1/case/evidences/7/../timeline/events/csv_upload"
         {| CSVData := "event_date,event_tz,event_title";
            CSVOptions := {| event_sync_iocs_assets := false;
                             event_in_summary := true;
                             event_in_graph := true;
                             event_source := "E01 timeline" |} |}
         (build_headers (Some "secret") None) 60]) /\
  main (tool true answer_array) ["--base-url"; "https://iris.local/api/v1/";
                                 "--case-id"; "7"; "--csv"; "events.csv";
                                 "--api-token"; "secret"] [] =
  import_csv (tool true answer_array) "https://iris.local/api/v1/" 7
             "/work/events.csv" (Some "secret") None "E01 timeline"
             true true false [].
Proof.
  split; [reflexivity|]. split; [|reflexivity].
  rewrite (import_csv_after_post (tool true answer_array) _ _ _ _ _ _ _ _ _
             "event_date,event_tz,event_title" answer_array []
             eq_refl eq_refl).
  reflexivity.
Qed.

Lemma main_missing_csv_witness :
  parse_args (tool false answer_array)
             ["--base-url"; "https://iris.local/api/v1/"; "--case-id"; "7";
              "--csv"; "events.csv"; "--api-token"; "secret"]
  = inl args_example /\
  resolve (tool false answer_array) (csv args_example)
  = inl "/work/events.csv" /\
  is_file (tool false answer_array) "/work/events.csv" = inl false /\
  main (tool false answer_array)
       ["--base-url"; "https://iris.local/api/v1/"; "--case-id"; "7";
        "--csv"; "events.csv"; "--api-token"; "secret"] [] =
  (Ok 1%Z, [Print stderr "CSV file not found: /work/events.csv"]).
Proof.
  split; [reflexivity|]. split; [reflexivity|]. split; [reflexivity|].
  apply (main_missing_csv (tool false answer_array) _ args_example
           "/work/events.csv" []);
    reflexivity.
Defined.

(** The [--csv] argument [~nobody_here/events.csv] names no existing file,
    but [expanduser] raises for it: [main] neither prints nor returns 1,
    the exception leaves it. *)
Lemma main_unresolvable_csv_raises :
  (forall p, is_file ExtraScenarios.tool_unknown_user p = inl false) /\
  resolve ExtraScenarios.tool_unknown_user "~nobody_here/events.csv" =
  inr (mk_exn RuntimeError "Could not determine home directory.") /\
  main ExtraScenarios.tool_unknown_user
       ["--base-url"; "https://iris.local/api/v1/"; "--case-id"; "7";
        "--csv"; "~nobody_here/events.csv"] [] =
  (Raise (mk_exn RuntimeError "Could not determine home directory."), []) /\
  (forall trace,
      main ExtraScenarios.tool_unknown_user
           ["--base-url"; "https://iris.local/api/v1/"; "--case-id"; "7";
            "--csv"; "~nobody_here/events.csv"] [] <> (Ok 1%Z, trace)).
Proof.
  split; [reflexivity|]. split; [reflexivity|]. split; [reflexivity|].
  intros trace H. discriminate H.
Qed.

Lemma request_url_trailing_slashes_witness :
  file_text (tool true answer_array) "/work/events.csv" =
  inl "event_date,event_tz,event_title" /\
  snd (import_csv (tool true answer_array) "https://iris.local/api/v1//" 7
                  "/work/events.csv" None None "E01 timeline" true true
                  false []) =
  [ReadText "/work/events.csv";
   Post "https://iris.local/api/v1/case/evidences/7/../timeline/events/csv_upload"
        {| CSVData := "event_date,event_tz,event_title";
           CSVOptions := {| event_sync_iocs_assets := false;
                            event_in_summary := true;
                            event_in_graph := true;
                            event_source := "E01 timeline" |} |}
        (build_headers None None) 60] /\
  exists stem k rest,
    "https://iris.local/api/v1//" = stem ++ repeat_char "/" k /\
    ends_with "/" stem = false /\
    request_url "https://iris.local/api/v1//" 7 =
    stem ++ "/case/evidences/" ++ str_of_Z 7
      ++ "/../timeline/events/csv_upload" /\
    snd (import_csv (tool true answer_array) "https://iris.local/api/v1//" 7
                    "/work/events.csv" None None "E01 timeline" true true
                    false []) =
    ([] ++ [ReadText "/work/events.csv";
            Post (stem ++ "/case/evidences/" ++ str_of_Z 7
                    ++ "/../timeline/events/csv_upload")
                 {| CSVData := "event_date,event_tz,event_title";
                    CSVOptions := {| event_sync_iocs_assets := false;
                                     event_in_summary := true;
                                     event_in_graph := true;
                                     event_source := "E01 timeline" |} |}
                 (build_headers None None) 60] ++ rest)%list /\
    (forall m,
        request_url (stem ++ repeat_char "/" m) 7 =
        request_url "https://iris.local/api/v1//" 7 /\
        import_csv (tool true answer_array) (stem ++ repeat_char "/" m) 7
                   "/work/events.csv" None None "E01 timeline" true true
                   false [] =
        import_csv (tool true answer_array) "https://iris.local/api/v1//" 7
                   "/work/events.csv" None None "E01 timeline" true true
                   false []).
Proof.
  split; [reflexivity|]. split; [reflexivity|].
  apply (request_url_trailing_slashes (tool true answer_array)
           "https://iris.local/api/v1//" 7 "/work/events.csv" None None
           "E01 timeline" true true false
           "event_date,event_tz,event_title" []).
  reflexivity.
Defined.

Example request_url_example :
  request_url "https://iris.local/api/v1//" 12 =
  "https://iris.local/api/v1/case/evidences/12/../timeline/events/csv_upload".
Proof. reflexivity. Qed.

End CsvFacts.

(* ===================================================================== *)
(** * Properties of the E01 processor module                             *)
(* ===================================================================== *)

Module E01Facts.
Import Py PyFacts E01.

#[local] Arguments String.append !_ _ : simpl nomatch.

(** ** Ordering of the query results *)

Section OrderBy.
Context {A : Type} (key : A -> Z).

Lemma insert_desc_In x l y :
  In y (insert_desc key x l) <-> y = x \/ In y l.
Proof.
  induction l as [|z l IH]; simpl.
  - intuition.
  - destruct (key z <=? key x)%Z; simpl; [intuition|].
    rewrite IH. intuition.
Qed.

Lemma order_by_desc_In l y : In y (order_by_desc key l) <-> In y l.
Proof.
  induction l as [|x l IH]; simpl; [reflexivity|].
  rewrite insert_desc_In, IH. intuition.
Qed.

(** The first row of the ordered result has the greatest key. *)
Lemma head_order_by_desc_max l r :
  head (order_by_desc key l) = Some r ->
  In r l /\ forall r', In r' l -> (key r' <= key r)%Z.
Proof.
  revert r. induction l as [|x l IH]; simpl; [discriminate|].
  intros r. destruct (order_by_desc key l) as [|z l'] eqn:El; simpl.
  - intros [= <-]. split; [now left|].
    assert (l = []) as ->.
    { destruct l as [|y l]; [reflexivity|].
      assert (In y (order_by_desc key (y :: l))) as Hy
          by (apply order_by_desc_In; now left).
      rewrite El in Hy. destruct Hy. }
    intros r' [<-|[]]. lia.
  - destruct (IH z eq_refl) as [Hz Hmax].
    destruct (key z <=? key x)%Z eqn:Hle; simpl; intros [= <-].
    + apply Z.leb_le in Hle. split; [now left|].
      intros r' [<-|Hr']; [lia|]. specialize (Hmax r' Hr'). lia.
    + apply Z.leb_gt in Hle. split; [now right|].
      intros r' [<-|Hr']; [lia|]. now apply Hmax.
Qed.

Lemma order_by_desc_nonempty l : l <> [] -> order_by_desc key l <> [].
Proof.
  destruct l as [|x l]; [congruence|]. intros _ H.
  assert (In x (order_by_desc key (x :: l))) as Hx
      by (apply order_by_desc_In; now left).
  rewrite H in Hx. destruct Hx.
Qed.
End OrderBy.

(** ** Every step of the module only appends to the trace *)

Lemma framed_emit ev : framed (emit ev).
Proof. split; [intros s; reflexivity|intros c; discriminate]. Qed.

Lemma framed_log m msg : framed (log m msg).
Proof. apply framed_emit. Qed.

(** Membership in a literal list of [except] clauses. *)
Ltac handlers :=
  let c := fresh "c" in
  let h := fresh "h" in
  let Hin := fresh "Hin" in
  let e := fresh "e" in
  intros c h Hin e; simpl in Hin;
  repeat (destruct Hin as [Hin|Hin]; [injection Hin as <- <-|]);
  try contradiction.

Ltac framing :=
  repeat first
    [ apply framed_ret
    | apply framed_raise
    | apply framed_emit
    | apply framed_log
    | apply framed_bind; [|intros]
    | apply framed_try_except; [|handlers]
    | match goal with
      | |- framed (if ?b then _ else _) => destruct b
      | |- framed (match ?x with _ => _ end) => destruct x
      end ].

Lemma framed_query_first w cid sha256 : framed (query_first w cid sha256).
Proof. unfold query_first. framing. Qed.

Lemma framed_build_upload_path w customer name module create :
  framed (build_upload_path w customer name module create).
Proof. unfold build_upload_path. framing. Qed.

Lemma framed_Popen w args env cwd : framed (subprocess_Popen w args env cwd).
Proof. unfold subprocess_Popen. framing. Qed.

Lemma framed_resolve w ev : framed (_resolve_evidence_path w ev).
Proof.
  unfold _resolve_evidence_path.
  destruct (_ || _); [apply framed_ret|].
  apply framed_bind; [apply framed_query_first|intros]. framing.
Qed.

Lemma framed_compute_output_dir w ev : framed (_compute_output_dir w ev).
Proof.
  unfold _compute_output_dir.
  apply framed_try_except; [|handlers; framing].
  destruct (_ || _); [apply framed_ret|].
  apply framed_bind; [apply framed_build_upload_path|intros; apply framed_ret].
Qed.

Lemma framed_launch w script_path extra_args_raw ev e01_path output_dir :
  framed (_launch_processing_script w script_path extra_args_raw ev e01_path
                                    output_dir).
Proof.
  unfold _launch_processing_script.
  apply framed_bind.
  - destruct (truthy extra_args_raw); [|apply framed_ret].
    apply framed_try_except; [|handlers; framing].
    destruct (Shlex.split extra_args_raw); framing.
  - intros extra_args.
    apply framed_try_except; [apply framed_Popen|handlers; framing].
Qed.

Lemma framed_process w script_path extra_args_raw log_debug ev :
  framed (process_evidence w script_path extra_args_raw log_debug ev).
Proof.
  unfold process_evidence.
  apply framed_bind; [apply framed_resolve|intros e01_path].
  destruct (negb (truthy_opt_str e01_path)); [apply framed_log|].
  apply framed_bind; [apply framed_compute_output_dir|intros output_dir].
  apply framed_bind; [destruct log_debug; framing|intros _].
  apply framed_launch.
Qed.

Lemma framed_handle w script_path extra_args_raw log_debug ev :
  framed (handle_evidence w script_path extra_args_raw log_debug ev).
Proof.
  unfold handle_evidence.
  apply framed_try_except; [apply framed_process|handlers; framing].
Qed.

(** An iteration of the loop never raises: whatever the body raises is
    caught and logged. *)
Lemma handle_evidence_catches w script_path extra_args_raw log_debug ev s :
  handle_evidence w script_path extra_args_raw log_debug ev s =
  match process_evidence w script_path extra_args_raw log_debug ev s with
  | (Raise e, s') =>
      (Ok tt,
       (s' ++ [Log exception
                 ("IrisE01Processor: error while handling evidence id="
                  ++ str_of_Z (id ev) ++ ": " ++ exn_msg e)])%list)
  | r => r
  end.
Proof.
  unfold handle_evidence, try_except.
  destruct (process_evidence _ _ _ _ _ s) as [[[]|e|c] s']; try reflexivity.
  simpl. rewrite isinstance_Exception. reflexivity.
Qed.

Lemma handle_evidence_returns w script_path extra_args_raw log_debug ev :
  fst (handle_evidence w script_path extra_args_raw log_debug ev []) = Ok tt.
Proof.
  rewrite handle_evidence_catches.
  destruct (framed_process w script_path extra_args_raw log_debug ev)
    as [_ Hx].
  destruct (process_evidence _ _ _ _ _ []) as [[[]|e|c] s'];
    try reflexivity.
  exfalso. apply (Hx c). reflexivity.
Qed.

(** ** The lexer rejects with [ValueError] only, and accepts the empty
    string *)

Lemma lex_error_class cs state escapedstate quoted token acc e :
  Shlex.lex cs state escapedstate quoted token acc = inr e ->
  exn_cls e = ValueError.
Proof.
  revert state escapedstate quoted token acc.
  induction cs as [|c cs IH]; intros state escapedstate quoted token acc.
  - simpl. destruct state; intros [= <-]; reflexivity.
  - simpl. destruct state;
      repeat match goal with
             | |- context [if ?b then _ else _] => destruct b
             end; apply IH.
Qed.

Lemma split_error_nonempty raw e :
  Shlex.split (PyStr raw) = inr e ->
  truthy (PyStr raw) = true /\ isinstance e ValueError = true.
Proof.
  simpl. unfold Shlex.split_str. intros H. split.
  - destruct raw; [discriminate H|reflexivity].
  - unfold isinstance. now rewrite (lex_error_class _ _ _ _ _ _ _ H).
Qed.

Lemma message_queue_app s t :
  message_queue (s ++ t) = (message_queue s ++ message_queue t)%list.
Proof. unfold message_queue. apply flat_map_app. Qed.

(** ** The launcher *)

(** What the launcher logs when the spawn ends in exception [e]. *)
Lemma launch_spawn_logs w script_path args env cwd s :
  try_except
    (subprocess_Popen w args env cwd)
    [(FileNotFoundError,
      fun _ =>
        log error ("IrisE01Processor: script '" ++ py_str script_path
                   ++ "' not found or not executable."));
     (Exception,
      fun e =>
        log exception ("IrisE01Processor: failed to launch script '"
                       ++ py_str script_path ++ "': " ++ exn_msg e))] s =
  (Ok tt,
   (s ++ [Popen args env cwd]
      ++ match spawn_error w args with
         | None => []
         | Some e =>
             if isinstance e FileNotFoundError
             then [Log error ("IrisE01Processor: script '"
                              ++ py_str script_path
                              ++ "' not found or not executable.")]
             else [Log exception ("IrisE01Processor: failed to launch script '"
                                  ++ py_str script_path ++ "': "
                                  ++ exn_msg e)]
         end)%list).
Proof.
  unfold try_except, subprocess_Popen, bind, emit, log, emit, raise, ret.
  destruct (spawn_error w args) as [e|]; simpl.
  - destruct (isinstance e FileNotFoundError); simpl.
    + now rewrite <- app_assoc.
    + rewrite isinstance_Exception. now rewrite <- app_assoc.
  - reflexivity.
Qed.

(** The launcher with a [str] (or empty) extra-arguments setting: it parses
    the setting, calls [Popen] once and returns, whatever the outcome of the
    parse and of the spawn. *)
Lemma launch_trace w script_path raw ev e01_path output_dir s :
  let parsed := if truthy (PyStr raw) then Shlex.split (PyStr raw)
                else inl [] in
  let extra_args := match parsed with inl l => l | inr _ => [] end in
  let args := ([script_path; PyStr e01_path] ++ map PyStr extra_args)%list in
  _launch_processing_script w script_path (PyStr raw) ev e01_path output_dir s
  = (Ok tt,
     (s ++ match parsed with
           | inl _ => []
           | inr _ =>
               [Log error
                  ("IrisE01Processor: failed to parse e01_script_extra_args '"
                   ++ raw ++ "'; ignoring extra args.")]
           end
        ++ [Popen args (child_env w ev e01_path output_dir)
                  (if truthy_opt_str output_dir then output_dir
                   else UPLOADED_PATH w)]
        ++ match spawn_error w args with
           | None => []
           | Some e =>
               if isinstance e FileNotFoundError
               then [Log error ("IrisE01Processor: script '"
                                ++ py_str script_path
                                ++ "' not found or not executable.")]
               else [Log exception
                       ("IrisE01Processor: failed to launch script '"
                        ++ py_str script_path ++ "': " ++ exn_msg e)]
           end)%list).
Proof.
  intros parsed extra_args args. subst args extra_args parsed.
  unfold _launch_processing_script.
  destruct (truthy (PyStr raw)) eqn:Ht.
  - destruct (Shlex.split (PyStr raw)) as [l|e] eqn:Hs.
    + unfold bind at 1. unfold try_except at 1. unfold ret at 1.
      cbv beta iota. rewrite launch_spawn_logs. reflexivity.
    + destruct (split_error_nonempty _ _ Hs) as [_ Hv].
      unfold bind at 1. unfold try_except at 1. unfold raise at 1.
      cbv beta iota. simpl find_handler. rewrite Hv.
      unfold bind at 1, log at 1, emit at 1, ret at 1.
      cbv beta iota. rewrite launch_spawn_logs. simpl.
      now rewrite <- app_assoc.
  - unfold bind at 1. unfold ret at 1.
    cbv beta iota. rewrite launch_spawn_logs. reflexivity.
Qed.

(** A script path that does not exist: the dedicated message is logged and
    the launcher returns. *)
Lemma launch_script_not_found w prog ev e01_path output_dir s :
  os_exec w prog = Some ENOENT ->
  _launch_processing_script w (PyStr prog) (PyStr "") ev e01_path output_dir s
  = (Ok tt,
     (s ++ [Popen [PyStr prog; PyStr e01_path]
                  (child_env w ev e01_path output_dir)
                  (if truthy_opt_str output_dir then output_dir
                   else UPLOADED_PATH w);
            Log error ("IrisE01Processor: script '" ++ prog
                       ++ "' not found or not executable.")])%list).
Proof.
  intros H. rewrite launch_trace. simpl. unfold spawn_error. simpl.
  rewrite H. reflexivity.
Qed.

(** A script that exists but may not be executed: [Popen] raises
    [PermissionError], which only the general clause catches. *)
Lemma launch_script_not_executable w prog ev e01_path output_dir s :
  os_exec w prog = Some EACCES ->
  _launch_processing_script w (PyStr prog) (PyStr "") ev e01_path output_dir s
  = (Ok tt,
     (s ++ [Popen [PyStr prog; PyStr e01_path]
                  (child_env w ev e01_path output_dir)
                  (if truthy_opt_str output_dir then output_dir
                   else UPLOADED_PATH w);
            Log exception ("IrisE01Processor: failed to launch script '"
                           ++ prog ++ "': "
                           ++ "[Errno 13] Permission denied")])%list).
Proof.
  intros H. rewrite launch_trace. simpl. unfold spawn_error. simpl.
  rewrite H. reflexivity.
Qed.

(** C5: a malformed extra-arguments string is logged as an error and the
    script is still launched, with the argument vector [script path,
    resolved file path]; the launcher returns normally and does nothing
    after the spawn but log its outcome. *)
Theorem launch_malformed_extra_args
        w script_path raw ev e01_path output_dir s e :
  Shlex.split (PyStr raw) = inr e ->
  exists outcome,
    _launch_processing_script w script_path (PyStr raw) ev e01_path
                              output_dir s
    = (Ok tt,
       (s ++ [Log error
                ("IrisE01Processor: failed to parse e01_script_extra_args '"
                 ++ raw ++ "'; ignoring extra args.");
              Popen [script_path; PyStr e01_path]
                    (child_env w ev e01_path output_dir)
                    (if truthy_opt_str output_dir then output_dir
                     else UPLOADED_PATH w)]
          ++ outcome)%list)
    /\ forall x, In x outcome -> exists method msg, x = Log method msg.
Proof.
  intros Hs. destruct (split_error_nonempty _ _ Hs) as [Ht _].
  rewrite launch_trace. rewrite Ht, Hs. simpl app.
  eexists. split; [reflexivity|].
  intros x. destruct (spawn_error w _) as [e'|]; [|intros []].
  destruct (isinstance e' FileNotFoundError); intros [<-|[]]; eauto.
Qed.

(** ** Path resolution *)

(** C7: an evidence item without a hash or without a case identifier is
    resolved to nothing without a datastore query, and the handler only
    logs a warning for it before it goes on with the next item. *)
Theorem missing_hash_or_case_is_skipped
        w ev script_path extra_args_raw log_debug rest s :
  truthy_opt_str (file_hash ev) = false \/
  truthy_opt_Z (case_id ev) = false ->
  _resolve_evidence_path w ev s = (Ok None, s) /\
  handle_evidence w script_path extra_args_raw log_debug ev s =
  (Ok tt,
   (s ++ [Log warning
            ("IrisE01Processor: unable to resolve local path for evidence id="
             ++ str_of_Z (id ev) ++ ", case_id="
             ++ str_of_opt_Z (case_id ev))])%list) /\
  for_each (ev :: rest)
           (handle_evidence w script_path extra_args_raw log_debug) s =
  for_each rest (handle_evidence w script_path extra_args_raw log_debug)
           (s ++ [Log warning
                    ("IrisE01Processor: unable to resolve local path for "
                     ++ "evidence id=" ++ str_of_Z (id ev) ++ ", case_id="
                     ++ str_of_opt_Z (case_id ev))])%list.
Proof.
  intros H.
  assert (Hres : forall s0, _resolve_evidence_path w ev s0 = (Ok None, s0)).
  { intros s0. unfold _resolve_evidence_path.
    destruct H as [-> | ->]; [|rewrite orb_true_r]; reflexivity. }
  assert (Hh : handle_evidence w script_path extra_args_raw log_debug ev s =
               (Ok tt,
                (s ++ [Log warning
                         ("IrisE01Processor: unable to resolve local path for evidence id="
                          ++ str_of_Z (id ev) ++ ", case_id="
                          ++ str_of_opt_Z (case_id ev))])%list)).
  { rewrite handle_evidence_catches. unfold process_evidence, bind.
    rewrite Hres. reflexivity. }
  split; [apply Hres|]. split; [exact Hh|].
  simpl. unfold bind at 1. rewrite Hh. reflexivity.
Qed.

(** C3: when the item has a hash and a case identifier and two or more
    stored-file records of the case carry that hash, the resolver returns
    the local path of a matching record that no matching record is newer
    than: the first row of the matches ordered by addition time,
    descending. *)
Theorem resolve_selects_latest w ev cid sha256 s :
  case_id ev = Some cid -> cid <> 0%Z ->
  file_hash ev = Some sha256 -> sha256 <> "" ->
  query_fault w cid sha256 = None ->
  (2 <= length (List.filter (matches cid sha256) (datastore w)))%nat ->
  exists dsf,
    head (order_by_desc file_date_added
            (List.filter (matches cid sha256) (datastore w))) = Some dsf /\
    In dsf (datastore w) /\
    file_case_id dsf = cid /\ file_sha256 dsf = sha256 /\
    (forall r, In r (datastore w) ->
               file_case_id r = cid -> file_sha256 r = sha256 ->
               (file_date_added r <= file_date_added dsf)%Z) /\
    _resolve_evidence_path w ev s =
    (Ok (file_local_name dsf), (s ++ [Query cid sha256])%list).
Proof.
  intros Hc Hc0 Hh Hh0 Hq Hlen.
  set (rows := List.filter (matches cid sha256) (datastore w)) in *.
  destruct (head (order_by_desc file_date_added rows)) as [dsf|] eqn:Hhead.
  - exists dsf. split; [reflexivity|].
    destruct (head_order_by_desc_max _ _ _ Hhead) as [Hin Hmax].
    apply filter_In in Hin. destruct Hin as [Hin Hm].
    unfold matches in Hm. apply andb_true_iff in Hm. destruct Hm as [Hm1 Hm2].
    apply Z.eqb_eq in Hm1. apply String.eqb_eq in Hm2.
    repeat split; auto.
    + intros r Hr Hr1 Hr2. apply Hmax. apply filter_In. split; [exact Hr|].
      unfold matches. rewrite Hr1, Hr2, Z.eqb_refl, String.eqb_refl.
      reflexivity.
    + unfold _resolve_evidence_path. rewrite Hc, Hh. simpl.
      apply Z.eqb_neq in Hc0. rewrite Hc0.
      apply String.eqb_neq in Hh0. rewrite Hh0. simpl.
      unfold bind, query_first, bind, emit. rewrite Hq.
      unfold ret. fold rows. rewrite Hhead. reflexivity.
  - exfalso. destruct rows as [|r rows'] eqn:Er; [simpl in Hlen; lia|].
    apply (order_by_desc_nonempty file_date_added (r :: rows'));
      [discriminate|].
    destruct (order_by_desc file_date_added (r :: rows')); [reflexivity|].
    discriminate Hhead.
Qed.

(** ** The hook handler *)

(** The handler answers a disabled module or another hook with the
    success status for its payload, and leaves the trace as it is. *)
Lemma hooks_handler_skips w hook_name hook_ui_name data s :
  conf_enabled w = false \/ hook_name <> "on_postload_evidence_create" ->
  hooks_handler w hook_name hook_ui_name data s =
  (Ok (I2Success data (message_queue s)), s).
Proof.
  intros H. unfold hooks_handler. fold (conf_enabled w).
  destruct (conf_enabled w); simpl.
  - destruct H as [H|H]; [discriminate H|].
    apply String.eqb_neq in H. rewrite H. reflexivity.
  - reflexivity.
Qed.

(** C2: with the module disabled, or for any other hook, the handler
    performs no effect at all (the trace is unchanged) and answers with
    the success status built for its payload; the host reads the payload
    back from that status whenever the payload is truthy. *)
Theorem hooks_handler_passthrough
        object_truthy template_data w hook_name hook_ui_name data s :
  conf_enabled w = false \/ hook_name <> "on_postload_evidence_create" ->
  exists logs,
    hooks_handler w hook_name hook_ui_name data s =
    (Ok (I2Success data logs), s) /\
    (payload_truthy object_truthy data = true ->
     get_data object_truthy template_data (I2Success data logs) = Some data).
Proof.
  intros H. exists (message_queue s).
  split; [apply hooks_handler_skips; exact H|].
  intros Ht. simpl. rewrite Ht. reflexivity.
Qed.

(** C4: enabled, evidence-creation hook, but no script path configured:
    the handler logs one error and returns the error status; no item is
    looked at. *)
Theorem hooks_handler_missing_script_path w hook_ui_name data s :
  conf_enabled w = true ->
  current_conf w !! "e01_script_path" = None \/
  (exists v, current_conf w !! "e01_script_path" = Some v /\
             truthy v = false) ->
  hooks_handler w "on_postload_evidence_create" hook_ui_name data s =
  (Ok (I2Error "e01_script_path not configured"
         (message_queue s
            ++ [("IrisE01Processor: e01_script_path is not configured; "
                 ++ "skipping evidence processing.")%string])%list),
   (s ++ [Log error ("IrisE01Processor: e01_script_path is not configured; "
                     ++ "skipping evidence processing.")])%list).
Proof.
  intros He Hp.
  assert (Hs : truthy (conf_script_path w) = false).
  { unfold conf_script_path, dict_get.
    destruct Hp as [-> | [v [-> Hv]]]; [reflexivity|exact Hv]. }
  unfold hooks_handler. fold (conf_enabled w) (conf_script_path w).
  rewrite He, Hs. simpl.
  unfold bind, log, emit, queued_logs, bind, get, ret.
  rewrite message_queue_app. reflexivity.
Qed.


(** ** The scenarios of [E01Scenarios] *)

Import E01Scenarios.

(** C6: a script that exists without execute permission.  [Popen] raises
    [PermissionError]; the launcher does not raise, but the record it logs
    is the one of the general clause, the same as for any other spawn
    failure (here an exec format error), and not the record reserved for
    [not found or not executable], which only a missing script gets. *)
Theorem launch_not_executable_is_logged_as_general_failure :
  _launch_processing_script (host conf_default (Some EACCES))
    (PyStr script) (PyStr "") ev_image "/data/second.E01" None [] =
  (Ok tt,
   [Popen [PyStr script; PyStr "/data/second.E01"]
          (child_env (host conf_default (Some EACCES)) ev_image
                     "/data/second.E01" None)
          (Some "/home/iris/uploads");
    Log exception
        ("IrisE01Processor: failed to launch script '" ++ script
         ++ "': [Errno 13] Permission denied")]) /\
  _launch_processing_script (host conf_default (Some ENOEXEC))
    (PyStr script) (PyStr "") ev_image "/data/second.E01" None [] =
  (Ok tt,
   [Popen [PyStr script; PyStr "/data/second.E01"]
          (child_env (host conf_default (Some ENOEXEC)) ev_image
                     "/data/second.E01" None)
          (Some "/home/iris/uploads");
    Log exception
        ("IrisE01Processor: failed to launch script '" ++ script
         ++ "': [Errno 8] Exec format error")]) /\
  _launch_processing_script (host conf_default (Some ENOENT))
    (PyStr script) (PyStr "") ev_image "/data/second.E01" None [] =
  (Ok tt,
   [Popen [PyStr script; PyStr "/data/second.E01"]
          (child_env (host conf_default (Some ENOENT)) ev_image
                     "/data/second.E01" None)
          (Some "/home/iris/uploads");
    Log error
        ("IrisE01Processor: script '" ++ script
         ++ "' not found or not executable.")]).
Proof.
  split; [|split].
  - rewrite (launch_script_not_executable _ script); reflexivity.
  - rewrite launch_trace. reflexivity.
  - rewrite (launch_script_not_found _ script); reflexivity.
Qed.


Lemma hooks_handler_passthrough_witness :
  (conf_enabled (host conf_disabled None) = false \/
   "on_postload_evidence_create" <> "on_postload_evidence_create") /\
  payload_truthy (fun _ => true) payload = true /\
  exists logs,
    hooks_handler (host conf_disabled None) "on_postload_evidence_create"
                  "Evidence created" payload [] =
    (Ok (I2Success payload logs), []) /\
    (payload_truthy (fun _ => true) payload = true ->
     get_data (fun _ => true) None (I2Success payload logs) = Some payload).
Proof.
  split; [left; reflexivity|]. split; [reflexivity|].
  apply (hooks_handler_passthrough (fun _ => true) None
           (host conf_disabled None)).
  left. reflexivity.
Defined.

(** With the module disabled, the status built for the empty list does not
    carry the empty list: its data field is the template's, which holds
    nothing. *)
Lemma hooks_handler_passthrough_empty_list :
  conf_enabled (host conf_disabled None) = false /\
  hooks_handler (host conf_disabled None) "on_postload_evidence_create"
                "Evidence created" (DataList []) [] =
  (Ok (I2Success (DataList []) []), []) /\
  get_data (fun _ => true) None (I2Success (DataList []) []) = None /\
  get_data (fun _ => true) None (I2Success (DataList []) [])
  <> Some (DataList []).
Proof.
  split; [reflexivity|]. split; [reflexivity|]. split; [reflexivity|].
  discriminate.
Qed.

Lemma hooks_handler_missing_script_path_witness :
  conf_enabled (host conf_no_script None) = true /\
  (current_conf (host conf_no_script None) !! "e01_script_path" = None \/
   exists v, current_conf (host conf_no_script None) !! "e01_script_path"
             = Some v /\ truthy v = false) /\
  hooks_handler (host conf_no_script None) "on_postload_evidence_create"
                "Evidence created" payload [] =
  (Ok (I2Error "e01_script_path not configured"
         ["IrisE01Processor: e01_script_path is not configured; skipping evidence processing."]),
   [Log error
        "IrisE01Processor: e01_script_path is not configured; skipping evidence processing."]).
Proof.
  assert (H : current_conf (host conf_no_script None) !! "e01_script_path"
              = None \/
              exists v, current_conf (host conf_no_script None)
                          !! "e01_script_path" = Some v /\ truthy v = false).
  { right. exists (PyStr ""). split; reflexivity. }
  split; [reflexivity|]. split; [exact H|].
  apply (hooks_handler_missing_script_path
           (host conf_no_script None) "Evidence created" payload []
           eq_refl H).
Defined.

Lemma resolve_selects_latest_witness :
  case_id ev_image = Some 7%Z /\ 7%Z <> 0%Z /\
  file_hash ev_image = Some "9f2c" /\ "9f2c" <> "" /\
  query_fault (host conf_default None) 7 "9f2c" = None /\
  (2 <= length (List.filter (matches 7 "9f2c")
                            (datastore (host conf_default None))))%nat /\
  _resolve_evidence_path (host conf_default None) ev_image [] =
  (Ok (Some "/data/second.E01"), [Query 7 "9f2c"]).
Proof.
  assert (Hlen : (2 <= length (List.filter (matches 7 "9f2c")
                                 (datastore (host conf_default None))))%nat).
  { vm_compute. lia. }
  repeat (split; [first [reflexivity | discriminate | exact Hlen]|]).
  destruct (resolve_selects_latest
              (host conf_default None) ev_image 7 "9f2c" []
              eq_refl ltac:(discriminate) eq_refl ltac:(discriminate)
              eq_refl Hlen) as (dsf & Hhead & _ & _ & _ & _ & Hres).
  vm_compute in Hhead. injection Hhead as <-. exact Hres.
Defined.

Lemma launch_malformed_extra_args_witness :
  Shlex.split (PyStr "--fast 'oops")
  = inr (mk_exn ValueError "No closing quotation") /\
  exists outcome,
    _launch_processing_script (host conf_default None) (PyStr script)
      (PyStr "--fast 'oops") ev_image "/data/second.E01" None []
    = (Ok tt,
       ([] ++ [Log error
                 ("IrisE01Processor: failed to parse e01_script_extra_args '"
                  ++ "--fast 'oops" ++ "'; ignoring extra args.");
               Popen [PyStr script; PyStr "/data/second.E01"]
                     (child_env (host conf_default None) ev_image
                                "/data/second.E01" None)
                     (if truthy_opt_str None then None
                      else UPLOADED_PATH (host conf_default None))]
           ++ outcome)%list)
    /\ forall x, In x outcome -> exists method msg, x = Log method msg.
Proof.
  split; [reflexivity|].
  apply (launch_malformed_extra_args
           (host conf_default None) (PyStr script) "--fast 'oops" ev_image
           "/data/second.E01" None []
           (mk_exn ValueError "No closing quotation")).
  reflexivity.
Defined.

Lemma missing_hash_or_case_is_skipped_witness :
  (truthy_opt_str (file_hash ev_no_hash) = false \/
   truthy_opt_Z (case_id ev_no_hash) = false) /\
  _resolve_evidence_path (host conf_default None) ev_no_hash [] = (Ok None, [])
  /\
  handle_evidence (host conf_default None) (PyStr script) (PyStr "") false
                  ev_no_hash [] =
  (Ok tt,
   [Log warning
        "IrisE01Processor: unable to resolve local path for evidence id=42, case_id=7"]).
Proof.
  split; [left; reflexivity|].
  destruct (missing_hash_or_case_is_skipped
              (host conf_default None) ev_no_hash (PyStr script) (PyStr "")
              false [] [] (or_introl eq_refl)) as (H1 & H2 & _).
  split; [exact H1|exact H2].
Defined.

End E01Facts.

(* ===================================================================== *)
(** * Further properties of the E01 processor module                     *)
(* ===================================================================== *)

Module E01Extra.
Import Py PyFacts E01 E01Facts E01Observe.
Import E01Register(register_hooks).

#[local] Arguments String.append !_ _ : simpl nomatch.

(** ** Observations distribute over concatenation *)

Lemma spawned_app s t : spawned (s ++ t) = (spawned s ++ spawned t)%list.
Proof. unfold spawned. apply flat_map_app. Qed.

Lemma queries_app s t : queries (s ++ t) = (queries s ++ queries t)%list.
Proof. unfold queries. apply flat_map_app. Qed.

Lemma created_app s t : created (s ++ t) = (created s ++ created t)%list.
Proof. unfold created. apply flat_map_app. Qed.

(** ** Path resolution, case by case *)

Lemma resolve_run w ev s :
  _resolve_evidence_path w ev s =
  match file_hash ev, case_id ev with
  | Some sha256, Some cid =>
      if negb (String.eqb sha256 "") && negb (cid =? 0)%Z then
        match query_fault w cid sha256 with
        | Some e => (Raise e, (s ++ [Query cid sha256])%list)
        | None =>
            match head (order_by_desc file_date_added
                          (List.filter (matches cid sha256) (datastore w)))
            with
            | Some dsf =>
                (Ok (file_local_name dsf), (s ++ [Query cid sha256])%list)
            | None =>
                (Ok None,
                 (s ++ [Query cid sha256;
                        Log warning
                            ("IrisE01Processor: no DataStoreFile found for evidence id="
                             ++ str_of_Z (id ev) ++ " case_id="
                             ++ str_of_opt_Z (Some cid) ++ " sha256="
                             ++ sha256)])%list)
            end
        end
      else (Ok None, s)
  | _, _ => (Ok None, s)
  end.
Proof.
  unfold _resolve_evidence_path.
  destruct (file_hash ev) as [sha256|] eqn:Hh; simpl; [|reflexivity].
  destruct (case_id ev) as [cid|] eqn:Hc; simpl;
    [|now rewrite orb_true_r].
  destruct (String.eqb sha256 ""); simpl; [reflexivity|].
  destruct (cid =? 0)%Z; simpl; [reflexivity|].
  unfold bind at 1, query_first, bind, emit.
  destruct (query_fault w cid sha256) as [e|]; [reflexivity|].
  unfold ret at 1.
  destruct (head _) as [dsf|]; [reflexivity|].
  unfold bind, log, emit, ret. now rewrite <- app_assoc.
Qed.

(** X17: an item with hash and case identifier that no stored-file record of
    the case carries: one lookup, one warning, nothing found. *)
Theorem resolve_without_match w ev cid sha256 s :
  case_id ev = Some cid -> cid <> 0%Z ->
  file_hash ev = Some sha256 -> sha256 <> "" ->
  query_fault w cid sha256 = None ->
  (forall r, In r (datastore w) ->
             file_case_id r = cid -> file_sha256 r <> sha256) ->
  _resolve_evidence_path w ev s =
  (Ok None,
   (s ++ [Query cid sha256;
          Log warning
              ("IrisE01Processor: no DataStoreFile found for evidence id="
               ++ str_of_Z (id ev) ++ " case_id=" ++ str_of_Z cid
               ++ " sha256=" ++ sha256)])%list).
Proof.
  intros Hc Hc0 Hh Hh0 Hq Hnone.
  rewrite resolve_run, Hh, Hc, Hq.
  apply Z.eqb_neq in Hc0. apply String.eqb_neq in Hh0.
  rewrite Hc0, Hh0. simpl.
  assert (Hf : List.filter (matches cid sha256) (datastore w) = []).
  { induction (datastore w) as [|r l IH]; [reflexivity|]. simpl.
    unfold matches at 1.
    destruct (file_case_id r =? cid)%Z eqn:E1; simpl.
    - destruct (String.eqb_spec (file_sha256 r) sha256) as [E2|E2].
      + exfalso. apply Z.eqb_eq in E1.
        apply (Hnone r (or_introl eq_refl) E1 E2).
      + apply IH. intros r' Hr'. apply Hnone. now right.
    - apply IH. intros r' Hr'. apply Hnone. now right. }
  rewrite Hf. reflexivity.
Qed.

Lemma resolve_stays_in_case_aux w ev path s s' :
  _resolve_evidence_path w ev s = (Ok (Some path), s') ->
  exists dsf,
    case_id ev = Some (file_case_id dsf) /\
    file_hash ev = Some (file_sha256 dsf) /\
    In dsf (datastore w) /\
    file_local_name dsf = Some path /\
    s' = (s ++ [Query (file_case_id dsf) (file_sha256 dsf)])%list.
Proof.
  rewrite resolve_run.
  destruct (file_hash ev) as [sha256|]; [|discriminate].
  destruct (case_id ev) as [cid|]; [|discriminate].
  destruct (_ && _); [|discriminate].
  destruct (query_fault w cid sha256); [discriminate|].
  destruct (head _) as [dsf|] eqn:Hhead; [|discriminate].
  intros [= Hp <-]. exists dsf.
  destruct (head_order_by_desc_max _ _ _ Hhead) as [Hin _].
  apply filter_In in Hin. destruct Hin as [Hin Hm].
  unfold matches in Hm. apply andb_true_iff in Hm. destruct Hm as [Hm1 Hm2].
  apply Z.eqb_eq in Hm1. apply String.eqb_eq in Hm2.
  subst cid sha256. repeat split; auto.
Qed.

(** X18: whatever path the resolver returns is the local name of a stored-file
    record of the item's own case with the item's own hash, found by a
    single lookup; records of other cases are never used. *)
Theorem resolve_stays_in_case w ev path s s' :
  _resolve_evidence_path w ev s = (Ok (Some path), s') ->
  exists cid sha256 dsf,
    case_id ev = Some cid /\ file_hash ev = Some sha256 /\
    In dsf (datastore w) /\
    file_case_id dsf = cid /\ file_sha256 dsf = sha256 /\
    file_local_name dsf = Some path /\
    s' = (s ++ [Query cid sha256])%list.
Proof.
  intros H.
  destruct (resolve_stays_in_case_aux _ _ _ _ _ H)
    as (dsf & Hc & Hh & Hin & Hp & Hs).
  exists (file_case_id dsf), (file_sha256 dsf), dsf. repeat split; auto.
Qed.

(** ** The output directory *)

(** The client name and the case name the directory is derived from. *)
Lemma compute_output_dir_run w ev s :
  let client := match case ev with Some c => case_client c | None => None end in
  let customer :=
    match client with Some cl => client_name cl | None => None end in
  let name := match case ev with Some c => case_name c | None => None end in
  let path := upload_path w (default "" customer) (default "" name)
                          module_name in
  _compute_output_dir w ev s =
  if truthy_opt_str customer && truthy_opt_str name then
    match makedirs_fault w path with
    | None => (Ok (Some path), (s ++ [Makedirs path])%list)
    | Some e =>
        (Ok None,
         (s ++ [Makedirs path;
                Log exception
                    ("IrisE01Processor: failed to compute output directory for "
                     ++ "evidence id=" ++ str_of_Z (id ev) ++ ": "
                     ++ exn_msg e)])%list)
    end
  else (Ok None, s).
Proof.
  intros client customer name path. unfold _compute_output_dir.
  fold client. fold customer. fold name.
  destruct (truthy_opt_str customer); simpl;
    [destruct (truthy_opt_str name); simpl|]; try reflexivity.
  unfold try_except, bind at 1, build_upload_path, bind, emit.
  fold path. destruct (makedirs_fault w path) as [e|]; simpl.
  - unfold raise. simpl. rewrite isinstance_Exception.
    unfold bind, log, emit, ret. now rewrite <- app_assoc.
  - reflexivity.
Qed.

(** X19: [_compute_output_dir] never raises and makes no lookup or spawn.
    With a client name and a case name that are both present and not empty
    it asks for the one directory derived from them: it returns that
    directory when the creation succeeds, and returns nothing after one
    exception record when the creation raises.  In every other case it
    returns nothing and leaves the file system alone. *)
Theorem compute_output_dir_never_raises w ev s :
  let client := match case ev with Some c => case_client c | None => None end in
  let customer :=
    match client with Some cl => client_name cl | None => None end in
  let name := match case ev with Some c => case_name c | None => None end in
  let path := upload_path w (default "" customer) (default "" name)
                          module_name in
  exists output_dir t,
    _compute_output_dir w ev s = (Ok output_dir, (s ++ t)%list) /\
    spawned t = [] /\ queries t = [] /\
    (if truthy_opt_str customer && truthy_opt_str name then
       created t = [path] /\
       match makedirs_fault w path with
       | None => output_dir = Some path /\ t = [Makedirs path]
       | Some e =>
           output_dir = None /\
           t = [Makedirs path;
                Log exception
                    ("IrisE01Processor: failed to compute output directory for "
                     ++ "evidence id=" ++ str_of_Z (id ev) ++ ": "
                     ++ exn_msg e)]
       end
     else output_dir = None /\ t = []) /\
    ((case ev = None \/
      (exists c, case ev = Some c /\
                 (case_client c = None \/ case_name c = None \/
                  case_name c = Some "" \/
                  exists cl, case_client c = Some cl /\
                             (client_name cl = None \/
                              client_name cl = Some "")))) ->
     output_dir = None /\ t = []).
Proof.
  pose proof (compute_output_dir_run w ev s) as Hrun. cbv zeta in Hrun.
  cbv zeta.
  set (client := match case ev with
                 | Some c => case_client c
                 | None => None
                 end) in *.
  set (customer := match client with
                   | Some cl => client_name cl
                   | None => None
                   end) in *.
  set (name := match case ev with
               | Some c => case_name c
               | None => None
               end) in *.
  assert (Hmiss :
            case ev = None \/
            (exists c, case ev = Some c /\
                       (case_client c = None \/ case_name c = None \/
                        case_name c = Some "" \/
                        exists cl, case_client c = Some cl /\
                                   (client_name cl = None \/
                                    client_name cl = Some ""))) ->
            truthy_opt_str customer && truthy_opt_str name = false).
  { unfold customer, client, name.
    intros [-> | (c & -> & [-> | [-> | [-> | (cl & -> & [-> | ->])]]])];
      simpl; try reflexivity; apply andb_false_r. }
  destruct (truthy_opt_str customer && truthy_opt_str name) eqn:Hn.
  - destruct (makedirs_fault w _) as [e|]; rewrite Hrun;
      eexists; eexists; (split; [reflexivity|]); simpl;
      (split; [reflexivity|]); (split; [reflexivity|]);
      (split; [repeat split|]);
      intros H; apply Hmiss in H; discriminate H.
  - rewrite Hrun. exists None, []. rewrite app_nil_r.
    split; [reflexivity|]. simpl.
    repeat split; reflexivity.
Qed.

(** ** The child's environment *)

(** X20: the environment handed to the script holds the five variables of
    the module, whatever the parent's environment says about them, and
    every other variable exactly as the parent has it. *)
Theorem child_env_lookup w ev e01_path output_dir :
  let env := child_env w ev e01_path output_dir in
  env !! "IRIS_CASE_ID" = Some (str_of_opt_Z (case_id ev)) /\
  env !! "IRIS_EVIDENCE_ID" = Some (str_of_Z (id ev)) /\
  env !! "IRIS_E01_PATH" = Some e01_path /\
  env !! "IRIS_E01_OUTPUT_DIR" =
    Some (match output_dir with Some d => d | None => "" end) /\
  env !! "IRIS_MODULE_NAME" = Some "iris_e01_processor" /\
  (forall k,
      k <> "IRIS_CASE_ID" -> k <> "IRIS_EVIDENCE_ID" ->
      k <> "IRIS_E01_PATH" -> k <> "IRIS_E01_OUTPUT_DIR" ->
      k <> "IRIS_MODULE_NAME" ->
      env !! k = environ w !! k).
Proof.
  intros env. subst env. unfold child_env.
  repeat split.
  - rewrite !lookup_insert_ne by discriminate. apply lookup_insert_eq.
  - rewrite !lookup_insert_ne by discriminate. apply lookup_insert_eq.
  - rewrite !lookup_insert_ne by discriminate. apply lookup_insert_eq.
  - rewrite !lookup_insert_ne by discriminate. rewrite lookup_insert_eq.
    f_equal. destruct output_dir as [d|]; simpl; [|reflexivity].
    destruct (String.eqb_spec d ""); simpl; congruence.
  - apply lookup_insert_eq.
  - intros k H1 H2 H3 H4 H5.
    rewrite !lookup_insert_ne by congruence. reflexivity.
Qed.

(** ** The launcher, for any extra-arguments setting *)

Lemma launch_run w script_path extra_args_raw ev e01_path output_dir s :
  let env := child_env w ev e01_path output_dir in
  let cwd := if truthy_opt_str output_dir then output_dir
             else UPLOADED_PATH w in
  let outcome := fun args =>
    match spawn_error w args with
    | None => []
    | Some e =>
        if isinstance e FileNotFoundError
        then [Log error ("IrisE01Processor: script '" ++ py_str script_path
                         ++ "' not found or not executable.")]
        else [Log exception ("IrisE01Processor: failed to launch script '"
                             ++ py_str script_path ++ "': " ++ exn_msg e)]
    end in
  _launch_processing_script w script_path extra_args_raw ev e01_path
                            output_dir s =
  match (if truthy extra_args_raw then Shlex.split extra_args_raw
         else inl []) with
  | inl l =>
      let args := ([script_path; PyStr e01_path] ++ map PyStr l)%list in
      (Ok tt, (s ++ [Popen args env cwd] ++ outcome args)%list)
  | inr e =>
      if isinstance e ValueError then
        let args := [script_path; PyStr e01_path] in
        (Ok tt,
         (s ++ [Log error
                  ("IrisE01Processor: failed to parse e01_script_extra_args '"
                   ++ py_str extra_args_raw ++ "'; ignoring extra args.")]
            ++ [Popen args env cwd] ++ outcome args)%list)
      else (Raise e, s)
  end.
Proof.
  intros env cwd outcome. subst env cwd outcome.
  unfold _launch_processing_script.
  destruct (truthy extra_args_raw).
  - destruct (Shlex.split extra_args_raw) as [l|e].
    + unfold bind at 1. unfold try_except at 1. unfold ret at 1.
      cbv beta iota. rewrite launch_spawn_logs. reflexivity.
    + unfold bind at 1. unfold try_except at 1. unfold raise at 1.
      cbv beta iota. simpl find_handler.
      destruct (isinstance e ValueError); [|reflexivity].
      unfold bind at 1, log at 1, emit at 1, ret at 1.
      cbv beta iota. rewrite launch_spawn_logs. simpl.
      now rewrite <- app_assoc.
  - unfold bind at 1. unfold ret at 1.
    cbv beta iota. rewrite launch_spawn_logs. reflexivity.
Qed.

Lemma launch_effects w script_path extra_args_raw ev e01_path output_dir s :
  exists r t,
    _launch_processing_script w script_path extra_args_raw ev e01_path
                              output_dir s = (r, (s ++ t)%list) /\
    queries t = [] /\ created t = [] /\
    (spawned t = [] \/
     exists extra,
       spawned t = [script_path :: PyStr e01_path :: map PyStr extra]).
Proof.
  rewrite launch_run. cbv zeta.
  destruct (if truthy extra_args_raw then _ else _) as [l|e].
  - eexists; eexists. split; [reflexivity|].
    destruct (spawn_error w _) as [e'|];
      [destruct (isinstance e' FileNotFoundError)|]; simpl;
      (repeat split; try reflexivity); right; exists l; reflexivity.
  - destruct (isinstance e ValueError).
    + eexists; eexists. split; [reflexivity|].
      destruct (spawn_error w _) as [e'|];
        [destruct (isinstance e' FileNotFoundError)|]; simpl;
        (repeat split; try reflexivity); right; exists []; reflexivity.
    + exists (Raise e), []. rewrite app_nil_r.
      repeat split; try reflexivity. now left.
Qed.

(** X21: when the extra-arguments string splits into words, the launcher
    asks for exactly one process, with the argument vector [script path,
    resolved path, words...], in the output directory if there is one and
    in the uploads root otherwise; it logs nothing when the process starts
    and one record when it does not, and returns in both cases. *)
Theorem launch_with_extra_args w script_path raw words ev e01_path
        output_dir s :
  Shlex.split (PyStr raw) = inl words ->
  let args :=
    (script_path :: PyStr e01_path :: map PyStr words)%list in
  let cwd := match output_dir with
             | Some d => if String.eqb d "" then UPLOADED_PATH w else Some d
             | None => UPLOADED_PATH w
             end in
  exists outcome,
    _launch_processing_script w script_path (PyStr raw) ev e01_path
                              output_dir s =
    (Ok tt,
     (s ++ Popen args (child_env w ev e01_path output_dir) cwd :: outcome)%list)
    /\ (spawn_error w args = None -> outcome = [])
    /\ (forall e, spawn_error w args = Some e ->
                  exists method msg, outcome = [Log method msg]).
Proof.
  intros Hs args cwd.
  assert (Hp : (if truthy (PyStr raw) then Shlex.split (PyStr raw)
                else inl []) = inl words).
  { destruct (truthy (PyStr raw)) eqn:Ht; [exact Hs|].
    destruct raw; [|discriminate Ht]. exact Hs. }
  rewrite launch_run. cbv zeta. rewrite Hp.
  assert (Hc : (if truthy_opt_str output_dir then output_dir
                else UPLOADED_PATH w) = cwd).
  { unfold cwd. destruct output_dir as [d|]; simpl; [|reflexivity].
    destruct (String.eqb d ""); reflexivity. }
  rewrite Hc.
  change ([script_path; PyStr e01_path] ++ map PyStr words)%list with args.
  destruct (spawn_error w args) as [e|].
  - eexists. split; [reflexivity|]. split; [discriminate|].
    intros e' _. destruct (isinstance e FileNotFoundError); eauto.
  - exists []. split; [reflexivity|]. split; [reflexivity|discriminate].
Qed.

(** ** One evidence item *)

Lemma compute_output_dir_effects w ev s :
  exists output_dir t,
    _compute_output_dir w ev s = (Ok output_dir, (s ++ t)%list) /\
    spawned t = [] /\ queries t = [].
Proof.
  rewrite compute_output_dir_run. cbv zeta.
  destruct (_ && _).
  - destruct (makedirs_fault w _); eexists; eexists;
      (split; [reflexivity|]); split; reflexivity.
  - exists None, []. rewrite app_nil_r. repeat split.
Qed.

(** What handling one item can ask of the datastore and of the operating
    system. *)
Lemma process_effects w script_path extra_args_raw log_debug ev :
  let t := snd (process_evidence w script_path extra_args_raw log_debug ev [])
  in
  (length (queries t) <= 1)%nat /\
  (spawned t = [] \/
   exists dsf path extra,
     case_id ev = Some (file_case_id dsf) /\
     file_hash ev = Some (file_sha256 dsf) /\
     In dsf (datastore w) /\
     file_local_name dsf = Some path /\ path <> "" /\
     queries t = [(file_case_id dsf, file_sha256 dsf)] /\
     spawned t = [script_path :: PyStr path :: map PyStr extra]).
Proof.
  cbv zeta.
  destruct (process_evidence w script_path extra_args_raw log_debug ev [])
    as [r t] eqn:Hrun.
  simpl snd. revert Hrun. unfold process_evidence. unfold bind at 1.
  destruct (_resolve_evidence_path w ev []) as [[[path|]|e|c] s1] eqn:Hres.
  - destruct (resolve_stays_in_case_aux w ev path [] s1 Hres)
      as (dsf & Hc & Hh & Hin & Hp & ->).
    simpl app. cbv beta iota.
    change (truthy_opt_str (Some path)) with (negb (String.eqb path "")).
    destruct (String.eqb_spec path "") as [->|Hne].
    + intros [= <- <-]. simpl. split; [lia|]. now left.
    + change (negb (negb false)) with false. cbv iota.
      change (default "" (Some path)) with path.
      unfold bind at 1.
      destruct (compute_output_dir_effects
                  w ev [Query (file_case_id dsf) (file_sha256 dsf)])
        as (od & t1 & -> & Hs1 & Hq1).
      unfold bind at 1.
      assert (Hdbg : exists t2,
                 (if log_debug
                  then log debug
                         ("IrisE01Processor: launching script '"
                          ++ py_str script_path ++ "' for evidence id="
                          ++ str_of_Z (id ev) ++ ", case_id="
                          ++ str_of_opt_Z (case_id ev) ++ ", e01_path='"
                          ++ path ++ "', output_dir='"
                          ++ (if truthy_opt_str od then default "" od
                              else "") ++ "'")
                  else ret tt)
                   ([Query (file_case_id dsf) (file_sha256 dsf)] ++ t1)%list
                 = (Ok tt,
                    (([Query (file_case_id dsf) (file_sha256 dsf)] ++ t1)
                       ++ t2)%list) /\
                 spawned t2 = [] /\ queries t2 = []).
      { destruct log_debug.
        - eexists. split; [reflexivity|]. split; reflexivity.
        - exists []. rewrite app_nil_r. repeat split. }
      destruct Hdbg as (t2 & -> & Hs2 & Hq2).
      destruct (launch_effects w script_path extra_args_raw ev path od
                  (([Query (file_case_id dsf) (file_sha256 dsf)] ++ t1)
                     ++ t2)%list)
        as (r' & t3 & -> & Hq3 & _ & Hs3).
      intros [= <- <-].
      change (Query (file_case_id dsf) (file_sha256 dsf) :: (t1 ++ t2) ++ t3)
        with ([Query (file_case_id dsf) (file_sha256 dsf)]
                ++ (t1 ++ t2) ++ t3)%list.
      rewrite !queries_app, !spawned_app, Hq1, Hq2, Hq3, Hs1, Hs2.
      simpl. split; [lia|].
      destruct Hs3 as [-> | [extra ->]]; [now left|].
      right. exists dsf, path, extra. repeat split; auto.
  - assert (Hq : (length (queries s1) <= 1)%nat /\ spawned s1 = []).
    { revert Hres. rewrite resolve_run.
      destruct (file_hash ev) as [sha256|];
        [|intros [= <-]; simpl; split; [lia|reflexivity]].
      destruct (case_id ev) as [cid|];
        [|intros [= <-]; simpl; split; [lia|reflexivity]].
      destruct (_ && _);
        [|intros [= <-]; simpl; split; [lia|reflexivity]].
      destruct (query_fault w cid sha256); [discriminate|].
      destruct (head _) as [dsf|].
      - intros [= _ <-]. simpl. split; [lia|reflexivity].
      - intros [= <-]. simpl. split; [lia|reflexivity]. }
    destruct Hq as [Hq Hs]. simpl.
    unfold log, emit. intros [= <- <-].
    rewrite queries_app, spawned_app, Hs. simpl.
    rewrite app_nil_r. split; [exact Hq|now left].
  - intros [= <- <-]. revert Hres. rewrite resolve_run.
    destruct (file_hash ev) as [sha256|]; [|discriminate].
    destruct (case_id ev) as [cid|]; [|discriminate].
    destruct (_ && _); [|discriminate].
    destruct (query_fault w cid sha256); [|destruct (head _); discriminate].
    intros [= _ <-]. simpl. split; [lia|now left].
  - exfalso. destruct (framed_resolve w ev) as [_ Hx].
    apply (Hx c). rewrite Hres. reflexivity.
Qed.

Lemma handle_effects w script_path extra_args_raw log_debug ev :
  let t := snd (handle_evidence w script_path extra_args_raw log_debug ev [])
  in
  (length (queries t) <= 1)%nat /\
  (spawned t = [] \/
   exists dsf path extra,
     case_id ev = Some (file_case_id dsf) /\
     file_hash ev = Some (file_sha256 dsf) /\
     In dsf (datastore w) /\
     file_local_name dsf = Some path /\ path <> "" /\
     queries t = [(file_case_id dsf, file_sha256 dsf)] /\
     spawned t = [script_path :: PyStr path :: map PyStr extra]).
Proof.
  cbv zeta. rewrite handle_evidence_catches.
  pose proof (process_effects w script_path extra_args_raw log_debug ev)
    as H.
  cbv zeta in H.
  destruct (process_evidence _ _ _ _ _ []) as [[[]|e|c] t]; simpl snd in *;
    try exact H.
  rewrite queries_app, spawned_app. simpl. rewrite !app_nil_r. exact H.
Qed.

(** ** The handler, case by case *)

Lemma hooks_handler_run w hook_name hook_ui_name data s :
  let item := fun ev =>
    snd (handle_evidence w (conf_script_path w) (conf_extra_args_raw w)
                         (conf_log_debug w) ev []) in
  let t :=
    if conf_enabled w then
      if String.eqb hook_name "on_postload_evidence_create" then
        if truthy (conf_script_path w) then
          match evidences_of data with
          | [] =>
              if conf_log_debug w
              then [Log debug ("IrisE01Processor: hook " ++ hook_name
                               ++ " received no CaseReceivedFile instances.")]
              else []
          | evs => flat_map item evs
          end
        else [Log error ("IrisE01Processor: e01_script_path is not configured; "
                         ++ "skipping evidence processing.")]
      else []
    else [] in
  hooks_handler w hook_name hook_ui_name data s =
  (Ok (if conf_enabled w
          && String.eqb hook_name "on_postload_evidence_create"
          && negb (truthy (conf_script_path w))
       then I2Error "e01_script_path not configured"
                    (message_queue (s ++ t))
       else I2Success data (message_queue (s ++ t))),
   (s ++ t)%list).
Proof.
  cbv zeta. unfold hooks_handler.
  fold (conf_enabled w) (conf_script_path w) (conf_extra_args_raw w)
       (conf_log_debug w).
  destruct (conf_enabled w); simpl;
    [|now rewrite app_nil_r].
  destruct (String.eqb hook_name "on_postload_evidence_create"); simpl;
    [|now rewrite app_nil_r].
  destruct (truthy (conf_script_path w)); simpl; [|reflexivity].
  destruct (evidences_of data) as [|ev evs] eqn:Ev.
  - destruct (conf_log_debug w); simpl; [reflexivity|].
    unfold bind, ret, queued_logs, bind, get, ret.
    now rewrite app_nil_r.
  - unfold bind at 1.
    rewrite (for_each_all (ev :: evs)
               (handle_evidence w (conf_script_path w)
                                (conf_extra_args_raw w) (conf_log_debug w)) s).
    + reflexivity.
    + intros x. apply framed_handle.
    + intros x. apply handle_evidence_returns.
Qed.

Lemma flat_map_spawned_bound (item : CaseReceivedFile -> list event) evs :
  (forall ev, length (spawned (item ev)) <= 1)%nat ->
  (length (spawned (flat_map item evs)) <= length evs)%nat.
Proof.
  intros H. induction evs as [|ev evs IH]; simpl; [lia|].
  rewrite spawned_app, length_app. specialize (H ev). lia.
Qed.

Lemma flat_map_queries_bound (item : CaseReceivedFile -> list event) evs :
  (forall ev, length (queries (item ev)) <= 1)%nat ->
  (length (queries (flat_map item evs)) <= length evs)%nat.
Proof.
  intros H. induction evs as [|ev evs IH]; simpl; [lia|].
  rewrite queries_app, length_app. specialize (H ev). lia.
Qed.

Lemma spawned_flat_map_In (item : CaseReceivedFile -> list event) evs args :
  In args (spawned (flat_map item evs)) ->
  exists ev, In ev evs /\ In args (spawned (item ev)).
Proof.
  induction evs as [|ev evs IH]; simpl; [intros []|].
  rewrite spawned_app, in_app_iff. intros [H|H].
  - exists ev. split; [now left|exact H].
  - destruct (IH H) as (ev' & Hin & Hs). exists ev'. split; [now right|exact Hs].
Qed.


(** X2: for a payload without evidence records (an empty list, a list of
    other objects, a single foreign object) the handler makes no lookup,
    no directory and no process: its only effect is one call of the debug
    logger when verbose logging is on.  It answers with the success status
    built for the payload; the host reads a truthy payload back from it,
    and for the empty list finds the template's data instead. *)
Theorem hooks_handler_no_evidence
        object_truthy template_data w hook_ui_name data s :
  conf_enabled w = true ->
  truthy (conf_script_path w) = true ->
  evidences_of data = [] ->
  let t := if conf_log_debug w
           then [Log debug ("IrisE01Processor: hook "
                            ++ "on_postload_evidence_create"
                            ++ " received no CaseReceivedFile instances.")]
           else [] in
  exists logs,
    hooks_handler w "on_postload_evidence_create" hook_ui_name data s =
    (Ok (I2Success data logs), (s ++ t)%list) /\
    (payload_truthy object_truthy data = true ->
     get_data object_truthy template_data (I2Success data logs) = Some data)
    /\
    (data = DataList [] ->
     get_data object_truthy template_data (I2Success data logs)
     = template_data).
Proof.
  intros He Hp Hev. cbv zeta.
  rewrite hooks_handler_run. cbv zeta.
  rewrite He, Hp, Hev, String.eqb_refl. simpl.
  eexists. split; [reflexivity|]. split.
  - intros Ht. rewrite Ht. reflexivity.
  - intros ->. reflexivity.
Qed.

(** X3: when reloading the configuration raises and no configuration is
    cached, the handler works with the empty configuration: it counts as
    enabled, has no script path, and so answers the evidence hook with the
    configuration error and touches no item. *)
Theorem hooks_handler_reload_failure w e hook_ui_name data s :
  module_dict_conf w = inr e ->
  _dict_conf w = None ->
  hooks_handler w "on_postload_evidence_create" hook_ui_name data s =
  (Ok (I2Error "e01_script_path not configured"
         (message_queue s
            ++ [("IrisE01Processor: e01_script_path is not configured; "
                 ++ "skipping evidence processing.")%string])%list),
   (s ++ [Log error ("IrisE01Processor: e01_script_path is not configured; "
                     ++ "skipping evidence processing.")])%list).
Proof.
  intros Hm Hd. rewrite hooks_handler_run. cbv zeta.
  assert (Hc : current_conf w = ∅).
  { unfold current_conf. rewrite Hm, Hd. reflexivity. }
  unfold conf_enabled, conf_script_path, dict_get. rewrite Hc.
  rewrite !lookup_empty. simpl.
  rewrite message_queue_app. reflexivity.
Qed.

(** X4: every process the handler asks for runs the configured script on
    the local name of a stored-file record whose case and hash are those of
    an evidence item of the payload; the script never gets a path from
    another case or one that is not in the datastore. *)
Theorem hooks_handler_spawns_stored_files w hook_name hook_ui_name data s
        args :
  In args (spawned (snd (hooks_handler w hook_name hook_ui_name data s))) ->
  In args (spawned s) \/
  exists ev dsf path extra,
    In ev (evidences_of data) /\
    In dsf (datastore w) /\
    case_id ev = Some (file_case_id dsf) /\
    file_hash ev = Some (file_sha256 dsf) /\
    file_local_name dsf = Some path /\ path <> "" /\
    args = conf_script_path w :: PyStr path :: map PyStr extra.
Proof.
  rewrite hooks_handler_run. cbv zeta. simpl snd.
  rewrite spawned_app, in_app_iff. intros [H|H]; [now left|]. right.
  destruct (conf_enabled w); [|destruct H].
  destruct (String.eqb hook_name _); [|destruct H].
  destruct (truthy (conf_script_path w)); [|destruct H].
  destruct (evidences_of data) as [|ev0 evs] eqn:Ev.
  { destruct (conf_log_debug w); destruct H. }
  apply (spawned_flat_map_In
           (fun ev => snd (handle_evidence w (conf_script_path w)
                             (conf_extra_args_raw w) (conf_log_debug w)
                             ev []))
           (ev0 :: evs)) in H.
  destruct H as (ev & Hin & Hargs).
  destruct (handle_effects w (conf_script_path w) (conf_extra_args_raw w)
              (conf_log_debug w) ev) as [_ [Hs|Hs]].
  - rewrite Hs in Hargs. destruct Hargs.
  - destruct Hs as (dsf & path & extra & Hc & Hh & Hd & Hp & Hne & _ & Hs).
    rewrite Hs in Hargs. destruct Hargs as [<-|[]].
    exists ev, dsf, path, extra. repeat split; auto.
Qed.

(** X5: one call of the handler asks for at most one datastore lookup and
    at most one process per evidence item of the payload. *)
Theorem hooks_handler_effect_bounds w hook_name hook_ui_name data :
  let t := snd (hooks_handler w hook_name hook_ui_name data []) in
  (length (queries t) <= length (evidences_of data))%nat /\
  (length (spawned t) <= length (evidences_of data))%nat /\
  (length (spawned t) <= length (queries t))%nat.
Proof.
  set (item := fun ev =>
         snd (handle_evidence w (conf_script_path w) (conf_extra_args_raw w)
                              (conf_log_debug w) ev [])).
  assert (Hall : forall l,
             (length (queries (flat_map item l)) <= length l)%nat /\
             (length (spawned (flat_map item l)) <= length l)%nat /\
             (length (spawned (flat_map item l))
              <= length (queries (flat_map item l)))%nat).
  { intros l. split; [|split].
    - apply flat_map_queries_bound. intros ev. apply handle_effects.
    - apply flat_map_spawned_bound. intros ev. unfold item.
      destruct (handle_effects w (conf_script_path w)
                  (conf_extra_args_raw w) (conf_log_debug w) ev)
        as [_ [->|(?&?&?&_&_&_&_&_&_&->)]]; simpl; lia.
    - induction l as [|ev l IH]; simpl; [lia|].
      rewrite spawned_app, queries_app, !length_app. unfold item at 1 3.
      destruct (handle_effects w (conf_script_path w)
                  (conf_extra_args_raw w) (conf_log_debug w) ev)
        as [_ [->|(?&?&?&_&_&_&_&_&->&->)]]; simpl; lia. }
  cbv zeta. rewrite hooks_handler_run. cbv zeta. simpl snd. simpl app.
  destruct (conf_enabled w); [|simpl; lia].
  destruct (String.eqb hook_name _); [|simpl; lia].
  destruct (truthy (conf_script_path w)); [|simpl; lia].
  destruct (evidences_of data) as [|ev0 evs] eqn:Ev.
  { destruct (conf_log_debug w); simpl; lia. }
  exact (Hall (ev0 :: evs)).
Qed.

(** ** Registration and declared configuration *)

(** X6: [register_hooks] makes one subscription request, asynchronous, for
    the one hook that [hooks_handler] acts on: for every other hook name
    the handler performs no effect.  [register_hooks] returns the host's
    answer as it is and logs one record, the host's message as an error
    when the subscription failed and a confirmation otherwise. *)
Theorem register_hooks_subscribes host module_id s :
  let answer := host module_id "on_postload_evidence_create" true in
  register_hooks host module_id s =
  (Ok answer,
   (s ++ [E01Register.RegisterToHook module_id "on_postload_evidence_create"
                                     true;
          if E01Register.is_failure answer
          then E01Register.Log E01Register.error
                               (E01Register.get_message answer)
          else E01Register.Log E01Register.info
                 "IrisE01Processor successfully subscribed to on_postload_evidence_create"])%list)
  /\
  (forall name async,
      In (E01Register.RegisterToHook module_id name async)
         (snd (register_hooks host module_id [])) ->
      async = true /\
      forall w hook_name hook_ui_name data s',
        hook_name <> name ->
        snd (hooks_handler w hook_name hook_ui_name data s') = s').
Proof.
  cbv zeta.
  assert (Hrun : forall s0,
             register_hooks host module_id s0 =
             (Ok (host module_id "on_postload_evidence_create" true),
              (s0 ++ [E01Register.RegisterToHook
                        module_id "on_postload_evidence_create" true;
                      if E01Register.is_failure
                           (host module_id "on_postload_evidence_create" true)
                      then E01Register.Log
                             E01Register.error
                             (E01Register.get_message
                                (host module_id "on_postload_evidence_create"
                                      true))
                      else E01Register.Log E01Register.info
                             "IrisE01Processor successfully subscribed to on_postload_evidence_create"])%list)).
  { intros s0.
    unfold register_hooks, E01Register.register_to_hook, bind,
      E01Register.emit, ret.
    destruct (E01Register.is_failure _); now rewrite <- app_assoc. }
  split; [apply Hrun|].
  intros name async. rewrite Hrun. simpl.
  intros [H|[H|[]]].
  - injection H as <- <-. split; [reflexivity|].
    intros w hook_name hook_ui_name data s' Hne.
    rewrite hooks_handler_run. cbv zeta.
    apply String.eqb_neq in Hne. rewrite Hne.
    rewrite andb_false_r. simpl.
    destruct (conf_enabled w); now rewrite app_nil_r.
  - destruct (E01Register.is_failure _); discriminate H.
Qed.

(** X7: filling the entries a configuration lacks with the defaults
    declared in [module_configuration] changes none of the enabled flag, the
    extra arguments and the debug flag the handler works with: its
    built-in fallbacks are the declared defaults.  The script path is the
    exception: the handler takes a missing entry as not configured, while
    the declaration has a default path. *)
Theorem declared_defaults_agree w w' (conf : gmap string pyval) :
  module_dict_conf w = inl conf ->
  module_dict_conf w' = inl (conf ∪ E01Config.declared_defaults) ->
  conf_enabled w' = conf_enabled w /\
  conf_extra_args_raw w' = conf_extra_args_raw w /\
  conf_log_debug w' = conf_log_debug w /\
  (conf !! "e01_script_path" = None ->
   conf_script_path w = PyNone /\
   conf_script_path w' = PyStr "/opt/iris/e01_processing/process_e01.sh").
Proof.
  intros Hw Hw'.
  unfold conf_enabled, conf_extra_args_raw, conf_log_debug, conf_script_path,
    current_conf, dict_get.
  rewrite Hw, Hw'. rewrite !lookup_union.
  repeat split.
  - destruct (conf !! "enabled"); reflexivity.
  - destruct (conf !! "e01_script_extra_args"); reflexivity.
  - destruct (conf !! "log_debug"); reflexivity.
  - rewrite H. reflexivity.
  - rewrite H. reflexivity.
Qed.

(** ** The scenarios *)

Import E01Scenarios ExtraScenarios.

Lemma resolve_without_match_witness :
  case_id ev_unknown = Some 7%Z /\ 7%Z <> 0%Z /\
  file_hash ev_unknown = Some "ffff" /\ "ffff" <> "" /\
  query_fault (host conf_default None) 7 "ffff" = None /\
  (forall r, In r (datastore (host conf_default None)) ->
             file_case_id r = 7%Z -> file_sha256 r <> "ffff") /\
  _resolve_evidence_path (host conf_default None) ev_unknown [] =
  (Ok None,
   [Query 7 "ffff";
    Log warning
        "IrisE01Processor: no DataStoreFile found for evidence id=43 case_id=7 sha256=ffff"]).
Proof.
  assert (Hnone : forall r, In r (datastore (host conf_default None)) ->
                            file_case_id r = 7%Z -> file_sha256 r <> "ffff").
  { intros r [<-|[<-|[<-|[<-|[]]]]] _; discriminate. }
  repeat (split; [first [reflexivity | discriminate | exact Hnone]|]).
  apply (resolve_without_match (host conf_default None) ev_unknown 7 "ffff" []
           eq_refl ltac:(discriminate) eq_refl ltac:(discriminate) eq_refl
           Hnone).
Defined.

Lemma resolve_stays_in_case_witness :
  _resolve_evidence_path (host conf_default None) ev_image [] =
  (Ok (Some "/data/second.E01"), [Query 7 "9f2c"]) /\
  exists cid sha256 dsf,
    case_id ev_image = Some cid /\ file_hash ev_image = Some sha256 /\
    In dsf (datastore (host conf_default None)) /\
    file_case_id dsf = cid /\ file_sha256 dsf = sha256 /\
    file_local_name dsf = Some "/data/second.E01" /\
    [Query 7 "9f2c"] = ([] ++ [Query cid sha256])%list.
Proof.
  split; [reflexivity|].
  apply (resolve_stays_in_case (host conf_default None) ev_image
           "/data/second.E01" [] [Query 7 "9f2c"]).
  reflexivity.
Defined.

Lemma launch_with_extra_args_witness :
  Shlex.split (PyStr "--profile win10") = inl ["--profile"; "win10"] /\
  exists outcome,
    _launch_processing_script (host conf_default None) (PyStr script)
      (PyStr "--profile win10") ev_image "/data/second.E01" None [] =
    (Ok tt,
     ([] ++ Popen [PyStr script; PyStr "/data/second.E01";
                   PyStr "--profile"; PyStr "win10"]
                  (child_env (host conf_default None) ev_image
                             "/data/second.E01" None)
                  (Some "/home/iris/uploads") :: outcome)%list)
    /\ (spawn_error (host conf_default None)
                    [PyStr script; PyStr "/data/second.E01";
                     PyStr "--profile"; PyStr "win10"] = None ->
        outcome = [])
    /\ (forall e,
           spawn_error (host conf_default None)
                       [PyStr script; PyStr "/data/second.E01";
                        PyStr "--profile"; PyStr "win10"] = Some e ->
           exists method msg, outcome = [Log method msg]).
Proof.
  split; [reflexivity|].
  apply (launch_with_extra_args (host conf_default None) (PyStr script)
           "--profile win10" ["--profile"; "win10"] ev_image
           "/data/second.E01" None []).
  reflexivity.
Defined.

Lemma hooks_handler_no_evidence_witness :
  conf_enabled (host conf_default None) = true /\
  truthy (conf_script_path (host conf_default None)) = true /\
  evidences_of payload_foreign = [] /\
  payload_truthy (fun _ => true) payload_foreign = true /\
  exists logs,
    hooks_handler (host conf_default None) "on_postload_evidence_create"
                  "Evidence created" payload_foreign [] =
    (Ok (I2Success payload_foreign logs), ([] ++ [])%list) /\
    (payload_truthy (fun _ => true) payload_foreign = true ->
     get_data (fun _ => true) None (I2Success payload_foreign logs)
     = Some payload_foreign) /\
    (payload_foreign = DataList [] ->
     get_data (fun _ => true) None (I2Success payload_foreign logs) = None).
Proof.
  split; [reflexivity|]. split; [reflexivity|]. split; [reflexivity|].
  split; [reflexivity|].
  apply (hooks_handler_no_evidence (fun _ => true) None
           (host conf_default None)
           "Evidence created" payload_foreign [] eq_refl eq_refl eq_refl).
Defined.

Lemma hooks_handler_reload_failure_witness :
  module_dict_conf host_reload_fails =
  inr (mk_exn RuntimeError "no application context") /\
  _dict_conf host_reload_fails = None /\
  hooks_handler host_reload_fails "on_postload_evidence_create"
                "Evidence created" payload [] =
  (Ok (I2Error "e01_script_path not configured"
         ["IrisE01Processor: e01_script_path is not configured; skipping evidence processing."]),
   [Log error
        "IrisE01Processor: e01_script_path is not configured; skipping evidence processing."]).
Proof.
  split; [reflexivity|]. split; [reflexivity|].
  apply (hooks_handler_reload_failure host_reload_fails
           (mk_exn RuntimeError "no application context")
           "Evidence created" payload [] eq_refl eq_refl).
Defined.

Lemma hooks_handler_spawns_stored_files_witness :
  In [PyStr script; PyStr "/data/second.E01"]
     (spawned (snd (hooks_handler (host conf_default None)
                      "on_postload_evidence_create" "Evidence created"
                      payload []))) /\
  (In [PyStr script; PyStr "/data/second.E01"] (spawned []) \/
   exists ev dsf path extra,
     In ev (evidences_of payload) /\
     In dsf (datastore (host conf_default None)) /\
     case_id ev = Some (file_case_id dsf) /\
     file_hash ev = Some (file_sha256 dsf) /\
     file_local_name dsf = Some path /\ path <> "" /\
     [PyStr script; PyStr "/data/second.E01"] =
     conf_script_path (host conf_default None) :: PyStr path
       :: map PyStr extra).
Proof.
  assert (H : In [PyStr script; PyStr "/data/second.E01"]
                 (spawned (snd (hooks_handler (host conf_default None)
                                  "on_postload_evidence_create"
                                  "Evidence created" payload [])))).
  { vm_compute. left. reflexivity. }
  split; [exact H|].
  apply (hooks_handler_spawns_stored_files (host conf_default None)
           "on_postload_evidence_create" "Evidence created" payload []
           [PyStr script; PyStr "/data/second.E01"] H).
Defined.

Lemma declared_defaults_agree_witness :
  module_dict_conf (host conf_partial None) = inl conf_partial /\
  module_dict_conf (host (conf_partial ∪ E01Config.declared_defaults) None)
  = inl (conf_partial ∪ E01Config.declared_defaults) /\
  conf_partial !! "e01_script_path" = None /\
  conf_log_debug (host (conf_partial ∪ E01Config.declared_defaults) None)
  = true /\
  conf_script_path (host conf_partial None) = PyNone /\
  conf_script_path (host (conf_partial ∪ E01Config.declared_defaults) None)
  = PyStr "/opt/iris/e01_processing/process_e01.sh".
Proof.
  split; [reflexivity|]. split; [reflexivity|]. split; [reflexivity|].
  destruct (declared_defaults_agree
              (host conf_partial None)
              (host (conf_partial ∪ E01Config.declared_defaults) None)
              conf_partial eq_refl eq_refl) as (_ & _ & Hd & Hp).
  split; [rewrite Hd; reflexivity|]. apply Hp. reflexivity.
Defined.

End E01Extra.

(* ===================================================================== *)
(** * Further properties of the CSV timeline importer                    *)
(* ===================================================================== *)

Module CsvExtra.
Import Py PyFacts Csv CsvFacts.

#[local] Arguments String.append !_ _ : simpl nomatch.

(** The JSON document and the decoded answer of a run. *)
Lemma import_csv_run w base cid path tok cookie src a b c s :
  let body := fun txt =>
    {| CSVData := txt;
       CSVOptions := {| event_sync_iocs_assets := c; event_in_summary := a;
                        event_in_graph := b; event_source := src |} |} in
  let hd := build_headers tok cookie in
  let url := request_url base cid in
  import_csv w base cid path tok cookie src a b c s =
  match file_text w path with
  | inr e => (Raise e, (s ++ [ReadText path])%list)
  | inl txt =>
      let s1 := (s ++ [ReadText path] ++ [Post url (body txt) hd 60])%list in
      match http w url (body txt) hd with
      | inr e => (Raise e, s1)
      | inl resp =>
          let data := match json_body resp with
                      | Some v => v
                      | None => JDict {[ "raw" := JStr (text resp) ]}
                      end in
          if ok resp then
            match data with
            | JDict d =>
                let message := match d !! "message" with
                               | Some v => v
                               | None => JStr ""
                               end in
                (Ok 0%Z,
                 (s1 ++ [Print stdout
                           ("[+] Import succeeded: "
                            ++ py_str w (if truthy message then message
                                         else data))])%list)
            | _ => (Raise (mk_exn AttributeError
                                  "object has no attribute 'get'"), s1)
            end
          else
            (Ok 1%Z,
             (s1 ++ [Print stderr
                       ("[-] Import failed (HTTP "
                        ++ str_of_Z (status_code resp)
                        ++ "): " ++ py_str w data)])%list)
      end
  end.
Proof.
  cbv zeta.
  destruct (file_text w path) as [txt|e] eqn:Hread.
  - destruct (http w (request_url base cid) _ (build_headers tok cookie))
      as [resp|e] eqn:Hpost.
    + apply (import_csv_after_post _ _ _ _ _ _ _ _ _ _ _ _ _ Hread Hpost).
    + unfold import_csv, read_text, requests_post, bind, emit, ret, raise.
      rewrite Hread. simpl. rewrite Hpost. simpl.
      now rewrite <- app_assoc.
  - unfold import_csv, read_text, bind, emit, raise. rewrite Hread.
    reflexivity.
Qed.

(** X8: the request headers: the content type always, the bearer token
    when a non-empty token is given, the cookie when a non-empty cookie is
    given, and nothing else. *)
Theorem build_headers_lookup (api_token cookie : option string) :
  build_headers api_token cookie !! "Content-Type" = Some "application/json"
  /\
  build_headers api_token cookie !! "Authorization" =
    match api_token with
    | Some t => if String.eqb t "" then None else Some ("Bearer " ++ t)
    | None => None
    end /\
  build_headers api_token cookie !! "Cookie" =
    match cookie with
    | Some ck => if String.eqb ck "" then None else Some ck
    | None => None
    end /\
  (forall k, k <> "Content-Type" -> k <> "Authorization" -> k <> "Cookie" ->
             build_headers api_token cookie !! k = None).
Proof.
  unfold build_headers.
  destruct api_token as [t|]; destruct cookie as [ck|]; simpl;
    try destruct (String.eqb t ""); try destruct (String.eqb ck ""); simpl;
    (split; [|split; [|split]]);
    try (intros k H1 H2 H3);
    repeat first
      [ rewrite lookup_insert_eq
      | rewrite lookup_insert_ne by (discriminate || congruence)
      | rewrite lookup_singleton_eq
      | rewrite lookup_singleton_ne by (discriminate || congruence) ];
    reflexivity.
Qed.

(** X9: a CSV file that cannot be read: the exception of the read leaves
    [import_csv] and no request is sent. *)
Theorem import_csv_read_failure w base cid path tok cookie src a b c e s :
  file_text w path = inr e ->
  import_csv w base cid path tok cookie src a b c s =
  (Raise e, (s ++ [ReadText path])%list).
Proof. intros H. rewrite import_csv_run. cbv zeta. rewrite H. reflexivity. Qed.

(** X10: a request that fails in the network layer: the exception of
    [requests.post] leaves [import_csv]; one request was tried, nothing is
    printed and no exit code is returned. *)
Theorem import_csv_network_failure w base cid path tok cookie src a b c
        txt e s :
  file_text w path = inl txt ->
  http w (request_url base cid)
       {| CSVData := txt;
          CSVOptions := {| event_sync_iocs_assets := c; event_in_summary := a;
                           event_in_graph := b; event_source := src |} |}
       (build_headers tok cookie) = inr e ->
  import_csv w base cid path tok cookie src a b c s =
  (Raise e,
   (s ++ [ReadText path;
          Post (request_url base cid)
               {| CSVData := txt;
                  CSVOptions := {| event_sync_iocs_assets := c;
                                   event_in_summary := a;
                                   event_in_graph := b;
                                   event_source := src |} |}
               (build_headers tok cookie) 60])%list).
Proof.
  intros Hread Hpost. rewrite import_csv_run. cbv zeta.
  rewrite Hread, Hpost. reflexivity.
Qed.

(** X11: one run of [import_csv] reads the file once, sends at most one
    request and prints at most one line, in this order; the request
    carries the text of the file as read, the options as given, the
    headers of [build_headers] and a timeout of 60 seconds. *)
Theorem import_csv_single_attempt w base cid path tok cookie src a b c :
  let t := snd (import_csv w base cid path tok cookie src a b c []) in
  t = [ReadText path] \/
  exists txt,
    file_text w path = inl txt /\
    let request :=
      Post (request_url base cid)
           {| CSVData := txt;
              CSVOptions := {| event_sync_iocs_assets := c;
                               event_in_summary := a;
                               event_in_graph := b;
                               event_source := src |} |}
           (build_headers tok cookie) 60 in
    t = [ReadText path; request] \/
    exists file line, t = [ReadText path; request; Print file line].
Proof.
  cbv zeta. rewrite import_csv_run. cbv zeta.
  destruct (file_text w path) as [txt|e]; [|now left].
  right. exists txt. split; [reflexivity|].
  destruct (http w _ _ _) as [resp|e]; [|now left].
  destruct (ok resp).
  - destruct (match json_body resp with Some v => v | None => _ end);
      simpl; eauto.
  - simpl. eauto.
Qed.

(** X12: an answer with a status from 400 to 599: one line on standard
    error with the status code and the decoded body, or the raw text under
    the key [raw] when the body is not JSON, and exit code 1; nothing on
    standard output. *)
Theorem import_csv_reports_failure w base cid path tok cookie src a b c
        txt resp s :
  file_text w path = inl txt ->
  http w (request_url base cid)
       {| CSVData := txt;
          CSVOptions := {| event_sync_iocs_assets := c; event_in_summary := a;
                           event_in_graph := b; event_source := src |} |}
       (build_headers tok cookie) = inl resp ->
  (400 <= status_code resp < 600)%Z ->
  import_csv w base cid path tok cookie src a b c s =
  (Ok 1%Z,
   (s ++ [ReadText path;
          Post (request_url base cid)
               {| CSVData := txt;
                  CSVOptions := {| event_sync_iocs_assets := c;
                                   event_in_summary := a;
                                   event_in_graph := b;
                                   event_source := src |} |}
               (build_headers tok cookie) 60;
          Print stderr
                ("[-] Import failed (HTTP " ++ str_of_Z (status_code resp)
                 ++ "): "
                 ++ py_str w match json_body resp with
                             | Some v => v
                             | None => JDict {[ "raw" := JStr (text resp) ]}
                             end)])%list).
Proof.
  intros Hread Hpost [Hlo Hhi]. rewrite import_csv_run. cbv zeta.
  rewrite Hread, Hpost.
  assert (Hok : ok resp = false).
  { unfold ok. apply Z.leb_le in Hlo. apply Z.ltb_lt in Hhi.
    now rewrite Hlo, Hhi. }
  rewrite Hok. simpl. now rewrite <- app_assoc.
Qed.


(** X14: a success answer whose body is not JSON: the raw text is wrapped
    under the key [raw], the success line shows that object, and the exit
    code is 0. *)
Theorem import_csv_success_without_json w base cid path tok cookie src a b c
        txt resp s :
  file_text w path = inl txt ->
  http w (request_url base cid)
       {| CSVData := txt;
          CSVOptions := {| event_sync_iocs_assets := c; event_in_summary := a;
                           event_in_graph := b; event_source := src |} |}
       (build_headers tok cookie) = inl resp ->
  ok resp = true ->
  json_body resp = None ->
  import_csv w base cid path tok cookie src a b c s =
  (Ok 0%Z,
   (s ++ [ReadText path;
          Post (request_url base cid)
               {| CSVData := txt;
                  CSVOptions := {| event_sync_iocs_assets := c;
                                   event_in_summary := a;
                                   event_in_graph := b;
                                   event_source := src |} |}
               (build_headers tok cookie) 60;
          Print stdout
                ("[+] Import succeeded: "
                 ++ py_repr w (JDict {[ "raw" := JStr (text resp) ]}))])%list).
Proof.
  intros Hread Hpost Hok Hbody. rewrite import_csv_run. cbv zeta.
  rewrite Hread, Hpost, Hok, Hbody. rewrite <- app_assoc.
  rewrite lookup_singleton_ne by discriminate. reflexivity.
Qed.

(** ** The command line *)

Lemma main_run w argv s :
  main w argv s =
  match parse_args w argv with
  | inr code => (SysExit code, s)
  | inl args =>
      match resolve w (csv args) with
      | inr e => (Raise e, s)
      | inl csv_path =>
          match is_file w csv_path with
          | inr e => (Raise e, s)
          | inl true =>
              import_csv w (base_url args) (case_id args) csv_path
                         (api_token args) (cookie args)
                         (event_source_arg args)
                         (negb (no_summary args)) (negb (no_graph args))
                         (sync_iocs_assets args) s
          | inl false =>
              (Ok 1%Z,
               (s ++ [Print stderr ("CSV file not found: "
                                    ++ csv_path)])%list)
          end
      end
  end.
Proof.
  unfold main, path_resolve, path_is_file, bind.
  destruct (parse_args w argv) as [args|code]; [|reflexivity].
  destruct (resolve w (csv args)) as [csv_path|e]; [|reflexivity].
  simpl. destruct (is_file w csv_path) as [[|]|e]; reflexivity.
Qed.

(** X15: when [main] returns, the exit code is 0 or 1.  It is 0 only after
    one request that the server answered with a success status, and then
    the last effect is a line on standard output; with exit code 1 the last
    effect is a line on standard error. *)
Theorem main_exit_code w argv code s s' :
  main w argv s = (Ok code, s') ->
  (code = 0%Z /\
   exists url body hd resp line,
     http w url body hd = inl resp /\ ok resp = true /\
     exists path,
       s' = (s ++ [ReadText path; Post url body hd 60;
                   Print stdout line])%list) \/
  (code = 1%Z /\
   exists t line, s' = (s ++ t ++ [Print stderr line])%list).
Proof.
  rewrite main_run.
  destruct (parse_args w argv) as [args|c]; [|discriminate].
  destruct (resolve w (csv args)) as [csv_path|e]; [|discriminate].
  destruct (is_file w csv_path) as [[|]|e]; [| |discriminate].
  - rewrite import_csv_run. cbv zeta.
    destruct (file_text w _) as [txt|e]; [|discriminate].
    destruct (http w _ _ _) as [resp|e] eqn:Hpost; [|discriminate].
    destruct (ok resp) eqn:Hok.
    + destruct (match json_body resp with Some v => v | None => _ end);
        try discriminate.
      intros [= <- <-]. left. split; [reflexivity|].
      do 5 eexists. split; [exact Hpost|]. split; [exact Hok|].
      eexists. rewrite <- app_assoc. reflexivity.
    + intros [= <- <-]. right. split; [reflexivity|].
      do 2 eexists. rewrite <- app_assoc. reflexivity.
  - intros [= <- <-]. right. split; [reflexivity|].
    exists [], ("CSV file not found: " ++ csv_path). reflexivity.
Qed.

(** X16: whatever request [main] sends is built from the parsed arguments:
    the URL from the base URL and the case id, the headers from token and
    cookie, the CSV text is the content of the resolved [--csv] file, the
    summary and graph options are the negations of [--no-summary] and
    [--no-graph], and the timeout is 60 seconds. *)
Theorem main_forwards_arguments w argv args url body hd timeout :
  parse_args w argv = inl args ->
  In (Post url body hd timeout) (snd (main w argv [])) ->
  (exists csv_path,
      resolve w (csv args) = inl csv_path /\
      is_file w csv_path = inl true /\
      file_text w csv_path = inl (CSVData body)) /\
  url = request_url (base_url args) (case_id args) /\
  CSVOptions body =
    {| event_sync_iocs_assets := sync_iocs_assets args;
       event_in_summary := negb (no_summary args);
       event_in_graph := negb (no_graph args);
       event_source := event_source_arg args |} /\
  hd = build_headers (api_token args) (cookie args) /\
  timeout = 60%Z.
Proof.
  intros Hparse. rewrite main_run, Hparse.
  destruct (resolve w (csv args)) as [csv_path|e]; [|intros []].
  destruct (is_file w csv_path) as [[|]|e] eqn:Hfile;
    [|simpl; intros [H|[]]; discriminate H|intros []].
  rewrite import_csv_run. cbv zeta.
  destruct (file_text w csv_path) as [txt|e] eqn:Hread;
    [|simpl; intros [H|[]]; discriminate H].
  assert (Hpost : forall x,
             x = Post (request_url (base_url args) (case_id args))
                      {| CSVData := txt;
                         CSVOptions :=
                           {| event_sync_iocs_assets := sync_iocs_assets args;
                              event_in_summary := negb (no_summary args);
                              event_in_graph := negb (no_graph args);
                              event_source := event_source_arg args |} |}
                      (build_headers (api_token args) (cookie args)) 60 ->
             x = Post url body hd timeout ->
             (exists p,
                 inl (A:=string) (B:=exn) csv_path = inl p /\
                 is_file w p = inl true /\
                 file_text w p = inl (CSVData body))
             /\ url = request_url (base_url args) (case_id args)
             /\ CSVOptions body =
                {| event_sync_iocs_assets := sync_iocs_assets args;
                   event_in_summary := negb (no_summary args);
                   event_in_graph := negb (no_graph args);
                   event_source := event_source_arg args |}
             /\ hd = build_headers (api_token args) (cookie args)
             /\ timeout = 60%Z).
  { intros x -> [= <- <- <- <-].
    split; [exists csv_path; repeat split; assumption|repeat split]. }
  destruct (http w _ _ _) as [resp|e].
  - destruct (ok resp);
      [destruct (match json_body resp with Some v => v | None => _ end)|];
      simpl; intros H;
      repeat (destruct H as [H|H]; [try discriminate H|]);
      try contradiction; eapply Hpost; eauto.
  - simpl. intros H.
    repeat (destruct H as [H|H]; [try discriminate H|]);
      try contradiction; eapply Hpost; eauto.
Qed.

(** ** The scenarios *)

Import CsvScenarios ExtraScenarios.

Lemma import_csv_read_failure_witness :
  file_text tool_unreadable "/work/events.csv" =
  inr (mk_exn ValueError "'utf-8' codec can't decode byte 0xff") /\
  import_csv tool_unreadable "https://iris.local/api/v1/" 7
             "/work/events.csv" (Some "secret") None "E01 timeline"
             true true false [] =
  (Raise (mk_exn ValueError "'utf-8' codec can't decode byte 0xff"),
   [ReadText "/work/events.csv"]).
Proof.
  split; [reflexivity|].
  apply (import_csv_read_failure tool_unreadable _ _ "/work/events.csv"
           _ _ _ _ _ _ _ [] eq_refl).
Defined.

Lemma import_csv_network_failure_witness :
  file_text tool_offline "/work/events.csv" =
  inl "event_date,event_tz,event_title" /\
  fst (import_csv tool_offline "https://iris.local/api/v1/" 7
                  "/work/events.csv" (Some "secret") None "E01 timeline"
                  true true false []) =
  Raise (mk_exn ConnectionError "connection refused").
Proof.
  split; [reflexivity|].
  rewrite (import_csv_network_failure tool_offline
             "https://iris.local/api/v1/" 7 "/work/events.csv"
             (Some "secret") None "E01 timeline" true true false
             "event_date,event_tz,event_title"
             (mk_exn ConnectionError "connection refused") []
             eq_refl eq_refl).
  reflexivity.
Defined.

Lemma import_csv_reports_failure_witness :
  (400 <= status_code answer_bad_request < 600)%Z /\
  exists s1,
    import_csv (tool true answer_bad_request) "https://iris.local/api/v1/" 7
               "/work/events.csv" (Some "secret") None "E01 timeline"
               true true false [] =
    (Ok 1%Z,
     (s1 ++ [Print stderr "[-] Import failed (HTTP 400): <json>"])%list).
Proof.
  split; [simpl; lia|].
  eexists.
  rewrite (import_csv_reports_failure (tool true answer_bad_request)
             "https://iris.local/api/v1/" 7 "/work/events.csv"
             (Some "secret") None "E01 timeline" true true false
             "event_date,event_tz,event_title" answer_bad_request []
             eq_refl eq_refl ltac:(simpl; lia)).
  change (Print stderr "[-] Import failed (HTTP 400): <json>")
    with (Print stderr
            ("[-] Import failed (HTTP "
             ++ str_of_Z (status_code answer_bad_request) ++ "): "
             ++ py_str (tool true answer_bad_request)
                  match json_body answer_bad_request with
                  | Some v => v
                  | None =>
                      JDict {[ "raw" := JStr (text answer_bad_request) ]}
                  end)).
  apply (f_equal (pair (Ok 1%Z))).
  exact (eq_refl ([_; _] ++ [_])%list).
Defined.


Lemma import_csv_success_without_json_witness :
  ok {| status_code := 204; text := ""; json_body := None |} = true /\
  fst (import_csv
         (tool true {| status_code := 204; text := ""; json_body := None |})
         "https://iris.local/api/v1/" 7 "/work/events.csv" (Some "secret")
         None "E01 timeline" true true false []) = Ok 0%Z.
Proof.
  split; [reflexivity|].
  rewrite (import_csv_success_without_json
             (tool true {| status_code := 204; text := ""; json_body := None |})
             "https://iris.local/api/v1/" 7 "/work/events.csv"
             (Some "secret") None "E01 timeline" true true false
             "event_date,event_tz,event_title"
             {| status_code := 204; text := ""; json_body := None |} []
             eq_refl eq_refl eq_refl eq_refl).
  reflexivity.
Defined.

Lemma main_exit_code_witness :
  exists s',
    main (tool true answer_ok) ["--base-url"; "https://iris.local/api/v1/";
                                "--case-id"; "7"; "--csv"; "events.csv"] []
    = (Ok 0%Z, s') /\
    exists url body hd resp line,
      http (tool true answer_ok) url body hd = inl resp /\ ok resp = true /\
      exists path,
        s' = ([] ++ [ReadText path; Post url body hd 60;
                     Print stdout line])%list.
Proof.
  eexists. split; [vm_compute; reflexivity|].
  destruct (main_exit_code (tool true answer_ok)
              ["--base-url"; "https://iris.local/api/v1/";
               "--case-id"; "7"; "--csv"; "events.csv"] 0 [] _ eq_refl)
    as [[_ H]|[H _]]; [exact H|discriminate H].
Defined.

Lemma main_forwards_arguments_witness :
  parse_args (tool true answer_ok) ["--base-url"; "https://iris.local/api/v1/"; "--case-id"; "7";
      "--csv"; "events.csv"; "--api-token"; "secret"] = inl args_example
  /\
  In (Post "https://iris.local/api/v1/case/evidences/7/../timeline/events/csv_upload"
           {| CSVData := "event_date,event_tz,event_title";
              CSVOptions := {| event_sync_iocs_assets := false;
                               event_in_summary := true;
                               event_in_graph := true;
                               event_source := "E01 timeline" |} |}
           (build_headers (Some "secret") None) 60)
     (snd (main (tool true answer_ok) ["--base-url"; "https://iris.local/api/v1/"; "--case-id"; "7";
      "--csv"; "events.csv"; "--api-token"; "secret"] [])) /\
  build_headers (Some "secret") None =
  build_headers (api_token args_example) (cookie args_example).
Proof.
  assert (H : In (Post "https://iris.local/api/v1/case/evidences/7/../timeline/events/csv_upload"
                       {| CSVData := "event_date,event_tz,event_title";
                          CSVOptions := {| event_sync_iocs_assets := false;
                                           event_in_summary := true;
                                           event_in_graph := true;
                                           event_source := "E01 timeline" |} |}
                       (build_headers (Some "secret") None) 60)
                 (snd (main (tool true answer_ok) ["--base-url"; "https://iris.local/api/v1/"; "--case-id"; "7";
      "--csv"; "events.csv"; "--api-token"; "secret"] []))).
  { right. left. reflexivity. }
  split; [reflexivity|]. split; [exact H|].
  apply (main_forwards_arguments (tool true answer_ok)
           ["--base-url"; "https://iris.local/api/v1/"; "--case-id"; "7";
      "--csv"; "events.csv"; "--api-token"; "secret"] args_example _ _ _ _ eq_refl H).
Defined.

End CsvExtra.
